(** * WordCloudGen: the Streamlit word-cloud page ([app.py])

    The page is one script that the host runtime re-runs from the top on
    every interaction.  The development below embeds

    - the string operations of the Python runtime the script relies on
      ([str.strip], [str.split], [str.lower], [in]),
    - [generate_wordcloud], with the stopword set as a [gset],
    - one pass of the script, as a computation that logs every call into
      Streamlit, wordcloud and matplotlib in the order it is made,

    and proves the behaviour of the page over them. *)

From Stdlib Require Import ZArith NArith QArith Ascii String Strings.Byte.
From stdpp Require Import gmap list.

(** ** Python strings *)

(** A [str] is a sequence of code points. *)
Abbreviation str := (list N).

(** A literal of the source, read as code points (ASCII literals only). *)
Definition py (s : string) : str :=
  List.map N_of_ascii (list_ascii_of_string s).

(** [Py_UNICODE_ISSPACE]: the code points [str.strip] removes. *)
Definition isspace (c : N) : bool :=
  ((9 <=? c) && (c <=? 13) || (28 <=? c) && (c <=? 32)
   || (c =? 133) || (c =? 160) || (c =? 5760)
   || (8192 <=? c) && (c <=? 8202)
   || (c =? 8232) || (c =? 8233) || (c =? 8239) || (c =? 8287)
   || (c =? 12288))%N.

Fixpoint lstrip (s : str) : str :=
  match s with
  | [] => []
  | c :: s' => if isspace c then lstrip s' else s
  end.

Definition rstrip (s : str) : str := reverse (lstrip (reverse s)).

(** [s.strip()] *)
Definition strip (s : str) : str := rstrip (lstrip s).

(** [s.split(sep)] for a one-character separator: never the empty list,
    [''.split(',')] is [['']]. *)
Fixpoint split (sep : N) (s : str) : list str :=
  match s with
  | [] => [[]]
  | c :: s' =>
      if (c =? sep)%N then [] :: split sep s'
      else match split sep s' with
           | [] => [[c]]
           | p :: ps => (c :: p) :: ps
           end
  end.

Definition comma : N := 44%N.

Definition isascii (c : N) : bool := (c <? 128)%N.

(** ['A'..'Z'] to ['a'..'z'], everything else unchanged. *)
Definition ascii_tolower (c : N) : N :=
  if ((65 <=? c) && (c <=? 90))%N then (c + 32)%N else c.

(** [s.lower()]: CPython lowers an all-ASCII string byte by byte and sends
    every other string through the Unicode database, which is a table of
    the runtime and is taken as the parameter [unicode_lower]. *)
Definition lower (unicode_lower : str → str) (s : str) : str :=
  if forallb isascii s then List.map ascii_tolower s else unicode_lower s.

Fixpoint startswith (s p : str) : bool :=
  match p, s with
  | [], _ => true
  | _ :: _, [] => false
  | a :: p', b :: s' => (a =? b)%N && startswith s' p'
  end.

(** [needle in hay] *)
Fixpoint contains (hay needle : str) : bool :=
  startswith hay needle
  || match hay with
     | [] => false
     | _ :: hay' => contains hay' needle
     end.

(** Truth value of a [str] and of a [bytes]: non-empty. *)
Definition truthy {A} (l : list A) : bool :=
  match l with [] => false | _ :: _ => true end.

(** ** Exceptions *)

(** What the script can observe of an exception: whether
    [except ValueError] catches it, and [str(e)]. *)
Record pyexc := PyExc { is_ValueError : bool; exc_str : str }.

(** ** The wordcloud and matplotlib objects *)

Abbreviation ndarray := (list (list Z)).

(** The keyword arguments of [WordCloud(...)]. *)
Module WC.
Record config := Config {
  background_color : string;
  stopwords : gset str;
  max_words : Z;
  mask : option ndarray;
  contour_width : Z;
  contour_color : string;
  colormap : string;
  width : option Z;
  height : option Z;
  min_font_size : Z;
  prefer_horizontal : Q
}.
End WC.

(** A [WordCloud] object: its parameters, and the layout once
    [generate] has run.  [layout] is the engine's packed word list. *)
Record WordCloud (layout : Type) := MkWordCloud {
  wc_params : WC.config;
  wc_layout : option layout
}.
Arguments MkWordCloud {layout} _ _.
Arguments wc_params {layout} _.
Arguments wc_layout {layout} _.

(** A matplotlib figure with its single axes. *)
Record Figure (layout : Type) := MkFigure {
  figsize : Z * Z;
  image : option (WordCloud layout * string);
  axis_on : bool
}.
Arguments MkFigure {layout} _ _ _.
Arguments figsize {layout} _.
Arguments image {layout} _.
Arguments axis_on {layout} _.

(** The keyword arguments of [fig.savefig]. *)
Record savefig_args := SavefigArgs {
  format : string;
  bbox_inches : string;
  pad_inches : Q;
  dpi : Z
}.

Abbreviation bytes := (list byte).

(** ** Calls the script makes, in order *)

Record slider_spec := Slider {
  min_value : Z;
  max_value : Z;
  value : Z;
  step : Z
}.

Inductive event (layout : Type) :=
| st_set_page_config (page_title layout_ : string)
| st_markdown (body : string) (unsafe_allow_html : bool)
| st_title (body : string)
| st_columns (spec : list Z)
| st_subheader (body : string)
| st_text_area (label : string) (height : Z) (placeholder : string)
| st_slider (label : string) (s : slider_spec)
| st_color_picker (label default : string)
| st_selectbox (label : string) (options : list string) (index : option nat)
| st_text_input (label placeholder : string)
| st_button (label type : string) (use_container_width : bool)
| st_spinner (text : string)
| st_warning (body : string)
| st_pyplot (fig : Figure layout)
| st_download_button (label : string) (data : bytes)
    (file_name mime : string) (use_container_width : bool)
| WordCloud_generate (wc : WordCloud layout) (text : str)
| fig_savefig (fig : Figure layout) (args : savefig_args).
Arguments st_set_page_config {layout} _ _.
Arguments st_markdown {layout} _ _.
Arguments st_title {layout} _.
Arguments st_columns {layout} _.
Arguments st_subheader {layout} _.
Arguments st_text_area {layout} _ _ _.
Arguments st_slider {layout} _ _.
Arguments st_color_picker {layout} _ _.
Arguments st_selectbox {layout} _ _ _.
Arguments st_text_input {layout} _ _.
Arguments st_button {layout} _ _ _.
Arguments st_spinner {layout} _.
Arguments st_warning {layout} _.
Arguments st_pyplot {layout} _.
Arguments st_download_button {layout} _ _ _ _ _.
Arguments WordCloud_generate {layout} _ _.
Arguments fig_savefig {layout} _ _.

(** ** Computations: a log of calls and a value or a raised exception *)

Inductive outcome (A : Type) :=
| Returned (a : A)
| Raised (e : pyexc).
Arguments Returned {A} _.
Arguments Raised {A} _.

Definition run (E A : Type) : Type := list E * outcome A.

Definition ret {E A} (a : A) : run E A := ([], Returned a).

Definition bind {E A B} (m : run E A) (k : A → run E B) : run E B :=
  match m with
  | (t, Returned a) => let '(t', r) := k a in (t ++ t', r)
  | (t, Raised e) => (t, Raised e)
  end.

Definition call {E} (ev : E) : run E unit := ([ev], Returned tt).

Definition raise {E A} (e : pyexc) : run E A := ([], Raised e).

(** The result of a library call that returns or raises. *)
Definition lift {E A} (r : pyexc + A) : run E A :=
  match r with
  | inl e => raise e
  | inr a => ret a
  end.

(** [try: m  except ValueError as e: h e]; any other exception passes. *)
Definition try_except_ValueError {E A} (m : run E A) (h : pyexc → run E A)
  : run E A :=
  match m with
  | (t, Raised e) =>
      if is_ValueError e then let '(t', r) := h e in (t ++ t', r)
      else (t, Raised e)
  | _ => m
  end.

Notation "'let!' x ':=' m 'in' k" := (bind m (fun x => k))
  (at level 10, x name, m at level 100, k at level 200).
Notation "'do!' m 'in' k" := (bind m (fun _ => k))
  (at level 10, m at level 100, k at level 200).

Definition trace {E A} (m : run E A) : list E := fst m.
Definition result {E A} (m : run E A) : outcome A := snd m.

(** ** The script *)

Definition hide_st_style : string := "
            <style>
            #MainMenu {visibility: hidden;}
            footer {visibility: hidden;}
            header {visibility: hidden;}
            </style>
            ".

Definition colormap_options : list string := [
  "viridis"; "plasma"; "inferno"; "magma"; "cividis"; "Greys"; "Purples";
  "Blues"; "Greens"; "Oranges"; "Reds"; "YlOrBr"; "YlOrRd"; "OrRd";
  "PuRd"; "RdPu"; "BuPu"; "GnBu"; "PuBu"; "YlGnBu"; "PuBuGn"; "BuGn";
  "YlGn"; "Pastel1"; "Pastel2"; "Paired"; "Accent"; "Dark2"; "Set1";
  "Set2"; "Set3"; "tab10"; "tab20"; "tab20b"; "tab20c"; "ocean"; "gist_earth"
]%string.

(** [colormap_options.index(name)] *)
Fixpoint index_of (name : string) (l : list string) : option nat :=
  match l with
  | [] => None
  | x :: l' => if String.eqb x name then Some O else S <$> index_of name l'
  end.

Definition max_words_slider : slider_spec :=
  {| min_value := 10; max_value := 500; value := 100; step := 10 |}.

(** Lines 94-97: the mask and contour settings of every pass. *)
Definition mask_array : option ndarray := None.
Definition use_contour : bool := false.
Definition contour_width : Z := 0.
Definition contour_color : string := "black".

Definition empty_result_warning : string :=
  "The provided text resulted in no words to display after processing (e.g., all stopwords or too short). Please try different text or fewer stopwords.".

Definition empty_input_warning : string :=
  "Please enter some text to generate a word cloud.".

(** What the widgets return in one pass. *)
Record inputs := Inputs {
  user_text : str;
  max_words : Z;
  background_color : string;
  selected_colormap : string;
  custom_stopwords_input : str;
  generate_clicked : bool
}.

Definition is_None {A} (o : option A) : bool :=
  match o with None => true | Some _ => false end.

Section App.

(** The Unicode lower-casing table of the runtime. *)
Variable unicode_lower : str → str.
(** [wordcloud.STOPWORDS] *)
Variable STOPWORDS : gset str.
(** The layout engine behind [WordCloud.generate]: returns or raises. *)
Variable layout : Type.
Variable engine_generate : WC.config → str → pyexc + layout.
(** The encoder behind [Figure.savefig] into a [BytesIO]: the bytes
    written, or an exception. *)
Variable savefig : Figure layout → savefig_args → pyexc + bytes.

Abbreviation lower := (lower unicode_lower).
Abbreviation ev := (event layout).

(** The list comprehension of line 28. *)
Definition custom_words (custom_stopwords : str) : list str :=
  List.map (fun word => lower (strip word))
    (List.filter (fun word => truthy (strip word))
       (split comma custom_stopwords)).

(** Lines 26-28. *)
Definition stopwords_set (custom_stopwords : str) : gset str :=
  let stopwords_set := STOPWORDS in
  if truthy custom_stopwords
  then stopwords_set ∪ list_to_set (custom_words custom_stopwords)
  else stopwords_set.

(** Lines 30-42: [WordCloud(...)]. *)
Definition new_WordCloud (max_words : Z) (background_color colormap : string)
    (custom_stopwords : str) (mask_image_array : option ndarray)
    (contour_width : Z) (contour_color : string) (use_contour : bool)
  : WordCloud layout :=
  let masked := negb (is_None mask_image_array) in
  MkWordCloud
    {| WC.background_color := background_color;
       WC.stopwords := stopwords_set custom_stopwords;
       WC.max_words := max_words;
       WC.mask := mask_image_array;
       WC.contour_width :=
         if use_contour && masked then contour_width else 0;
       WC.contour_color :=
         if use_contour && masked then contour_color else "black";
       WC.colormap := colormap;
       WC.width := if is_None mask_image_array then Some 1200%Z else None;
       WC.height := if is_None mask_image_array then Some 600%Z else None;
       WC.min_font_size := 10;
       WC.prefer_horizontal := 9 # 10 |}
    None.

(** [wc.generate(text)]: lays the words out in [wc] and returns it. *)
Definition generate (wc : WordCloud layout) (text : str)
  : run ev (WordCloud layout) :=
  do! call (WordCloud_generate wc text) in
  let! l := lift (engine_generate (wc_params wc) text) in
  ret (MkWordCloud (wc_params wc) (Some l)).

Definition generate_wordcloud (text : str) (max_words : Z)
    (background_color colormap : string) (custom_stopwords : str)
    (mask_image_array : option ndarray) (contour_width : Z)
    (contour_color : string) (use_contour : bool)
  : run ev (option (WordCloud layout)) :=
  let wc := new_WordCloud max_words background_color colormap
              custom_stopwords mask_image_array contour_width
              contour_color use_contour in
  try_except_ValueError
    (let! wc := generate wc text in
     ret (Some wc))
    (fun e =>
       if contains (lower (exc_str e)) (py "empty") then
         do! call (st_warning empty_result_warning) in
         ret None
       else raise e).

(** Lines 119-121: the figure shown and saved. *)
Definition plt_subplots (figsize : Z * Z) : Figure layout :=
  MkFigure figsize None true.
Definition ax_imshow (fig : Figure layout) (wc : WordCloud layout)
    (interpolation : string) : Figure layout :=
  MkFigure (figsize fig) (Some (wc, interpolation)) (axis_on fig).
Definition ax_axis_off (fig : Figure layout) : Figure layout :=
  MkFigure (figsize fig) (image fig) false.

Definition download_args : savefig_args :=
  {| format := "PNG"; bbox_inches := "tight";
     pad_inches := 1 # 10; dpi := 300 |}.

(** Lines 100-131.  [wordcloud_image_bytes] is the variable of line 72
    as it stands before the block; the block returns it as it stands
    after. *)
Definition generate_button_block (i : inputs)
    (wordcloud_image_bytes : option bytes) : run ev (option bytes) :=
  do! call (st_button "🚀 Generate Word Cloud" "primary" true) in
  if generate_clicked i then
    if truthy (user_text i) && truthy (strip (user_text i)) then
      do! call (st_spinner "Generating your word cloud... Please wait.") in
      let! wordcloud_object :=
        generate_wordcloud (user_text i) (max_words i)
          (background_color i) (selected_colormap i)
          (custom_stopwords_input i) mask_array contour_width
          contour_color use_contour in
      match wordcloud_object with
      | Some wordcloud_object =>
          do! call (st_subheader "🎉 Your Word Cloud:") in
          let fig := plt_subplots (12, 6)%Z in
          let fig := ax_imshow fig wordcloud_object "bilinear" in
          let fig := ax_axis_off fig in
          do! call (st_pyplot fig) in
          do! call (fig_savefig fig download_args) in
          let! img_byte_arr := lift (savefig fig download_args) in
          ret (Some img_byte_arr)
      | None => ret wordcloud_image_bytes
      end
    else if negb (truthy (user_text i))
            || negb (truthy (strip (user_text i))) then
      do! call (st_warning empty_input_warning) in
      ret wordcloud_image_bytes
    else ret wordcloud_image_bytes
  else ret wordcloud_image_bytes.

(** Lines 134-141. *)
Definition download_block (wordcloud_image_bytes : option bytes)
  : run ev unit :=
  match wordcloud_image_bytes with
  | Some data =>
      if truthy data then
        call (st_download_button "📥 Download Word Cloud (PNG)" data
                "my_word_cloud.png" "image/png" true)
      else ret tt
  | None => ret tt
  end.

(** One pass of the script, top to bottom. *)
Definition app (i : inputs) : run ev unit :=
  do! call (st_set_page_config "Word Cloud Generator" "wide") in
  do! call (st_markdown hide_st_style true) in
  do! call (st_title "Interactive Word Cloud Generator") in
  do! call (st_markdown "Create beautiful word clouds from your text. Customize colors, shapes, and Download it !" false) in
  do! call (st_columns [2; 1]%Z) in
  do! call (st_subheader "📝 Input Your Text") in
  do! call (st_text_area "Paste your text below:" 300 "Enter a long piece of text here to see a meaningful word cloud. The more frequent a word, the larger it will appear.") in
  let wordcloud_image_bytes : option bytes := None in
  do! call (st_subheader "⚙️ Customization Options") in
  do! call (st_slider "Maximum Words:" max_words_slider) in
  do! call (st_color_picker "Background Color:" "#FFFFFF") in
  do! call (st_selectbox "Word Color Scheme (Colormap):" colormap_options
              (index_of "viridis" colormap_options)) in
  do! call (st_text_input "Additional Stopwords (comma-separated):" "e.g., thing, stuff, like") in
  let! wordcloud_image_bytes :=
    generate_button_block i wordcloud_image_bytes in
  do! download_block wordcloud_image_bytes in
  do! call (st_markdown "---" false) in
  call (st_markdown "Created by Dheeraj jaiswal" false).

End App.


(** ** Reading a log *)

Section Log.
Context {layout : Type}.
Implicit Types t : list (event layout).

(** The calls of [WordCloud.generate], with the object and the text. *)
Definition generation_calls t : list (WordCloud layout * str) :=
  omap (fun e => match e with
                 | WordCloud_generate wc text => Some (wc, text)
                 | _ => None
                 end) t.

Definition warnings t : list string :=
  omap (fun e => match e with st_warning body => Some body | _ => None end) t.

(** The figures put on the page. *)
Definition displays t : list (Figure layout) :=
  omap (fun e => match e with st_pyplot fig => Some fig | _ => None end) t.

(** The calls of [savefig]. *)
Definition encodings t : list (Figure layout * savefig_args) :=
  omap (fun e => match e with
                 | fig_savefig fig args => Some (fig, args)
                 | _ => None
                 end) t.

(** The figure as it is shown ([inl]) and as it is saved ([inr]), in the
    order of the calls. *)
Definition render_steps t
  : list (Figure layout + Figure layout * savefig_args) :=
  omap (fun e => match e with
                 | st_pyplot fig => Some (inl fig)
                 | fig_savefig fig args => Some (inr (fig, args))
                 | _ => None
                 end) t.

(** The download buttons: data, file name, mime type. *)
Definition downloads t : list (bytes * string * string) :=
  omap (fun e => match e with
                 | st_download_button _ data file_name mime _ =>
                     Some (data, file_name, mime)
                 | _ => None
                 end) t.
End Log.

(** The message with which the wordcloud package reports that no word is
    left to draw ([generate_from_frequencies]; the package is not part of
    this repository). *)
Definition no_words_message : str :=
  py "We need at least 1 word to plot a word cloud, got 0.".

(** ['a'..'z'] to ['A'..'Z'], everything else unchanged. *)
Definition ascii_toupper (c : N) : N :=
  if ((97 <=? c) && (c <=? 122))%N then (c - 32)%N else c.

(** [s.upper()], with the Unicode table as a parameter like [lower]. *)
Definition upper (unicode_upper : str → str) (s : str) : str :=
  if forallb isascii s then List.map ascii_toupper s else unicode_upper s.

(** "straße": the sharp s is code point 223. *)
Definition strasse : str := py "stra" ++ [223%N] ++ py "e".

(** ** A small engine to run the script on *)

Module Demo.

(** A table that lowers nothing outside ASCII. *)
Definition unicode_lower (s : str) : str := List.map ascii_tolower s.

Definition STOPWORDS : gset str :=
  list_to_set [py "the"; py "a"; py "an"; py "and"; py "of"].

(** The words an engine keeps: the pieces between spaces whose
    lower-casing is not a stopword. *)
Definition eligible_words (cfg : WC.config) (text : str) : list str :=
  List.filter
    (fun w => truthy w
              && negb (bool_decide (lower unicode_lower w ∈ WC.stopwords cfg)))
    (split 32%N text).

(** Lays out the first [max_words] words; with no word to lay out it
    raises the [ValueError] of the wordcloud package. *)
Definition engine_generate (cfg : WC.config) (text : str)
  : pyexc + list str :=
  match eligible_words cfg text with
  | [] => inl (PyExc true no_words_message)
  | ws => inr (take (Z.to_nat (WC.max_words cfg)) ws)
  end.

Definition png_signature : bytes :=
  [x89; x50; x4e; x47; x0d; x0a; x1a; x0a].

Definition savefig (fig : Figure (list str)) (args : savefig_args)
  : pyexc + bytes := inr png_signature.

(** An encoder that fails. *)
Definition savefig_failing (fig : Figure (list str)) (args : savefig_args)
  : pyexc + bytes := inl (PyExc false (py "out of memory")).

(** A table of capitals that knows the capital of the sharp s (code point
    223), two letters S, and leaves everything else outside ASCII as it
    is. *)
Definition unicode_upper (s : str) : str :=
  flat_map (fun c => if (c =? 223)%N then [83%N; 83%N] else [ascii_toupper c]) s.


Definition animals : string := "dog dog cat bird dog cat".

Definition animals_layout : list str :=
  [py "dog"; py "dog"; py "cat"; py "bird"; py "dog"; py "cat"].

Definition app := app unicode_lower STOPWORDS (list str) engine_generate savefig.

Definition clicked (text extra : string) : inputs :=
  {| user_text := py text; max_words := 100;
     background_color := "#FFFFFF"; selected_colormap := "viridis";
     custom_stopwords_input := py extra; generate_clicked := true |}.

End Demo.

(** ** Statement vocabulary *)

Section Vocabulary.
Variable unicode_lower : str → str.
Variable STOPWORDS : gset str.
Variable layout : Type.
Variable engine_generate : WC.config → str → pyexc + layout.
Variable savefig : Figure layout → savefig_args → pyexc + bytes.

(** The test of lines 46-48 on a raised exception. *)
Definition soft_failure (e : pyexc) : bool :=
  is_ValueError e && contains (lower unicode_lower (exc_str e)) (py "empty").

(** The condition of line 101. *)
Definition has_text (i : inputs) : bool :=
  truthy (user_text i) && truthy (strip (user_text i)).

(** The object the button block builds from the widgets. *)
Definition the_wordcloud (i : inputs) : WordCloud layout :=
  new_WordCloud unicode_lower STOPWORDS layout (max_words i)
    (background_color i) (selected_colormap i) (custom_stopwords_input i)
    mask_array contour_width contour_color use_contour.

(** The figure the button block draws for a generated object. *)
Definition figure_of (wc : WordCloud layout) : Figure layout :=
  ax_axis_off layout
    (ax_imshow layout (plt_subplots layout (12, 6)%Z) wc "bilinear").

Definition generated (wc : WordCloud layout) (l : layout) : WordCloud layout :=
  MkWordCloud (wc_params wc) (Some l).

(** What happens between the button and the download block, by case. *)
Inductive pass_kind :=
| NotClicked
| EmptyInput
| EmptyResult (e : pyexc)
| GenerationError (e : pyexc)
| EncodingError (l : layout) (e : pyexc)
| Rendered (l : layout) (data : bytes).

Definition classify (i : inputs) : pass_kind :=
  if negb (generate_clicked i) then NotClicked
  else if negb (has_text i) then EmptyInput
  else match engine_generate (wc_params (the_wordcloud i)) (user_text i) with
       | inl e => if soft_failure e then EmptyResult e else GenerationError e
       | inr l =>
           match savefig (figure_of (generated (the_wordcloud i) l))
                   download_args with
           | inl e => EncodingError l e
           | inr data => Rendered l data
           end
       end.

(** In the pass on [i] a word cloud was generated and encoded as [data]. *)
Definition produced (i : inputs) (data : bytes) : Prop :=
  generate_clicked i = true ∧ has_text i = true ∧
  ∃ l, engine_generate (wc_params (the_wordcloud i)) (user_text i) = inr l ∧
       savefig (figure_of (generated (the_wordcloud i) l)) download_args
       = inr data.

(** A reading of the display as made from the download buffer: when a
    figure is put on the page, [savefig] has been called on it before and
    has returned the buffer. *)
Definition display_from_buffer : Prop :=
  ∀ i before fig after,
    render_steps (trace (app unicode_lower STOPWORDS layout
                           engine_generate savefig i))
    = before ++ inl fig :: after →
    ∃ args data, inr (fig, args) ∈ before ∧ savefig fig args = inr data.
End Vocabulary.
Arguments NotClicked {layout}.
Arguments EmptyInput {layout}.
Arguments EmptyResult {layout} _.
Arguments GenerationError {layout} _.
Arguments EncodingError {layout} _ _.
Arguments Rendered {layout} _ _.
Arguments figure_of {layout} _.
Arguments generated {layout} _ _.

(** [",".join(entries)] *)
Fixpoint join (sep : N) (ps : list str) : str :=
  match ps with
  | [] => []
  | [p] => p
  | p :: ps' => p ++ sep :: join sep ps'
  end.

(** An entry of a comma-separated list holds no comma. *)
Definition comma_free (p : str) : Prop := comma ∉ p.

(** [q] is [p] with whitespace added around it. *)
Definition padded (p q : str) : Prop :=
  ∃ l r, forallb isspace l = true ∧ forallb isspace r = true ∧ q = l ++ p ++ r.

(** [t] is [s] with the case of some of the letters A-Z, a-z changed. *)
Definition case_changed (s t : str) : Prop :=
  Forall2 (fun a b => ascii_tolower a = ascii_tolower b) s t.

(** ** More of the log and of the entries *)

Section Page.
Context {layout : Type}.
Implicit Types t : list (event layout).

(** The bodies of the [st.markdown] calls. *)
Definition markdowns t : list string :=
  omap (fun e => match e with st_markdown body _ => Some body | _ => None end) t.


(** The labels of the input widgets and of the button, as they are
    rendered. *)
Definition widget_labels t : list string :=
  omap (fun e => match e with
                 | st_text_area label _ _ | st_slider label _
                 | st_color_picker label _ | st_selectbox label _ _
                 | st_text_input label _ | st_button label _ _ => Some label
                 | _ => None
                 end) t.
End Page.

(** Widget values of a pass in which the button is not pressed. *)
Definition idle (text extra : string) : inputs :=
  {| user_text := py text; max_words := 100;
     background_color := "#FFFFFF"; selected_colormap := "viridis";
     custom_stopwords_input := py extra; generate_clicked := false |}.

(** The number of commas of a string. *)
Definition commas (s : str) : nat :=
  length (List.filter (fun c => (c =? comma)%N) s).

Definition isupper_ascii (c : N) : bool := ((65 <=? c) && (c <=? 90))%N.

(** No whitespace at either end. *)
Definition trimmed (w : str) : Prop :=
  (∀ c, head w = Some c → isspace c = false)
  ∧ (∀ c, last w = Some c → isspace c = false).

(** An ASCII entry as the script stores it: not empty, without a comma,
    without whitespace at its ends, without a capital letter. *)
Definition normal_entry (w : str) : Prop :=
  w ≠ [] ∧ comma_free w ∧ trimmed w
  ∧ forallb isascii w = true
  ∧ forallb (fun c => negb (isupper_ascii c)) w = true.

(** * Proofs *)

(** ** Strings *)

Lemma lstrip_nil_iff (s : str) : lstrip s = [] ↔ forallb isspace s = true.
Proof.
  induction s as [|c s IH]; simpl; [done|].
  destruct (isspace c); simpl; [exact IH | split; discriminate].
Qed.

Lemma lstrip_spaces_app (l s : str) :
  forallb isspace l = true → lstrip (l ++ s) = lstrip s.
Proof.
  induction l as [|c l IH]; simpl; [done|].
  destruct (isspace c); simpl; [exact IH | discriminate].
Qed.

Lemma lstrip_app_keep (s r : str) :
  lstrip s ≠ [] → lstrip (s ++ r) = lstrip s ++ r.
Proof.
  induction s as [|c s IH]; simpl; [done|].
  destruct (isspace c); [exact IH | done].
Qed.

Lemma forallb_reverse {A} (f : A → bool) (l : list A) :
  forallb f (reverse l) = forallb f l.
Proof.
  induction l as [|x l IH]; [done|].
  rewrite reverse_cons, forallb_app, IH. simpl.
  rewrite andb_true_r. apply andb_comm.
Qed.

Lemma lstrip_idem_spaces (s : str) :
  forallb isspace (lstrip s) = true → lstrip s = [].
Proof.
  induction s as [|c s IH]; simpl; [done|].
  destruct (isspace c) eqn:Hc; [exact IH|].
  simpl. rewrite Hc. discriminate.
Qed.

Lemma rstrip_nil_iff (s : str) : rstrip s = [] ↔ forallb isspace s = true.
Proof.
  unfold rstrip. rewrite <- (forallb_reverse isspace s), <- lstrip_nil_iff.
  split.
  - intros H. apply (f_equal reverse) in H. by rewrite reverse_involutive in H.
  - by intros ->.
Qed.

(** The trimmed text has zero length exactly when the text is empty or
    all whitespace. *)
Lemma strip_nil_iff (s : str) : strip s = [] ↔ forallb isspace s = true.
Proof.
  unfold strip. rewrite rstrip_nil_iff. split.
  - intros H. by apply lstrip_nil_iff, lstrip_idem_spaces.
  - intros H. apply lstrip_nil_iff in H. by rewrite H.
Qed.

Lemma truthy_false_iff {A} (l : list A) : truthy l = false ↔ l = [].
Proof. by destruct l. Qed.

Lemma truthy_true_iff {A} (l : list A) : truthy l = true ↔ l ≠ [].
Proof. by destruct l. Qed.

Lemma has_text_false_iff (i : inputs) :
  has_text i = false ↔ forallb isspace (user_text i) = true.
Proof.
  unfold has_text. rewrite andb_false_iff, !truthy_false_iff, strip_nil_iff.
  split; [|by right].
  intros [->|H]; done.
Qed.

(** ** One pass of the script *)

Section Pass.
Variable unicode_lower : str → str.
Variable STOPWORDS : gset str.
Variable layout : Type.
Variable engine_generate : WC.config → str → pyexc + layout.
Variable savefig : Figure layout → savefig_args → pyexc + bytes.

Abbreviation generate_wordcloud' :=
  (generate_wordcloud unicode_lower STOPWORDS layout engine_generate).
Abbreviation new_WordCloud' := (new_WordCloud unicode_lower STOPWORDS layout).
Abbreviation app' :=
  (app unicode_lower STOPWORDS layout engine_generate savefig).
Abbreviation block' :=
  (generate_button_block unicode_lower STOPWORDS layout engine_generate savefig).
Abbreviation wc_of := (the_wordcloud unicode_lower STOPWORDS layout).
Abbreviation soft := (soft_failure unicode_lower).
Abbreviation kind_of :=
  (classify unicode_lower STOPWORDS layout engine_generate savefig).

(** The three ways [generate_wordcloud] ends. *)
Lemma generate_wordcloud_cases text mw bg cm cs mask cw cc uc :
  let wc := new_WordCloud' mw bg cm cs mask cw cc uc in
  generate_wordcloud' text mw bg cm cs mask cw cc uc =
    match engine_generate (wc_params wc) text with
    | inr l => ([WordCloud_generate wc text], Returned (Some (generated wc l)))
    | inl e =>
        if soft e
        then ([WordCloud_generate wc text; st_warning empty_result_warning],
              Returned None)
        else ([WordCloud_generate wc text], Raised e)
    end.
Proof.
  intros wc. unfold generate_wordcloud, generate, soft_failure. fold wc.
  destruct (engine_generate (wc_params wc) text) as [e|l]; simpl; [|done].
  destruct (is_ValueError e); simpl; [|done].
  by destruct (contains _ _).
Qed.

Ltac pass_cases i :=
  unfold classify, app, generate_button_block, download_block,
    has_text, the_wordcloud;
  rewrite generate_wordcloud_cases;
  destruct (generate_clicked i); [|reflexivity];
  destruct (truthy (user_text i)); [|reflexivity];
  destruct (truthy (strip (user_text i))); [|reflexivity];
  destruct (engine_generate _ _) as [e|l];
  [ destruct (soft e); reflexivity |];
  unfold figure_of, generated; simpl;
  destruct (savefig _ _) as [e|[|b data]]; reflexivity.

Lemma app_generation_calls i :
  generation_calls (trace (app' i)) =
    match kind_of i with
    | NotClicked | EmptyInput => []
    | _ => [(wc_of i, user_text i)]
    end.
Proof. pass_cases i. Qed.

Lemma app_warnings i :
  warnings (trace (app' i)) =
    match kind_of i with
    | EmptyInput => [empty_input_warning]
    | EmptyResult _ => [empty_result_warning]
    | _ => []
    end.
Proof. pass_cases i. Qed.

Lemma app_displays i :
  displays (trace (app' i)) =
    match kind_of i with
    | EncodingError l _ | Rendered l _ =>
        [figure_of (generated (wc_of i) l)]
    | _ => []
    end.
Proof. pass_cases i. Qed.

Lemma app_encodings i :
  encodings (trace (app' i)) =
    match kind_of i with
    | EncodingError l _ | Rendered l _ =>
        [(figure_of (generated (wc_of i) l), download_args)]
    | _ => []
    end.
Proof. pass_cases i. Qed.

Lemma app_downloads i :
  downloads (trace (app' i)) =
    match kind_of i with
    | Rendered _ data =>
        if truthy data then [(data, "my_word_cloud.png", "image/png")%string]
        else []
    | _ => []
    end.
Proof. pass_cases i. Qed.

Lemma app_result i :
  result (app' i) =
    match kind_of i with
    | GenerationError e | EncodingError _ e => Raised e
    | _ => Returned tt
    end.
Proof. pass_cases i. Qed.

Lemma app_render_steps i :
  render_steps (trace (app' i)) =
    match kind_of i with
    | EncodingError l _ | Rendered l _ =>
        let fig := figure_of (generated (wc_of i) l) in
        [inl fig; inr (fig, download_args)]
    | _ => []
    end.
Proof. pass_cases i. Qed.


Lemma block_result i :
  result (block' i None) =
    match kind_of i with
    | GenerationError e | EncodingError _ e => Raised e
    | Rendered _ data => Returned (Some data)
    | _ => Returned None
    end.
Proof. pass_cases i. Qed.

Lemma classify_Rendered_iff i l data :
  kind_of i = Rendered l data ↔
  generate_clicked i = true ∧ has_text i = true ∧
  engine_generate (wc_params (wc_of i)) (user_text i) = inr l ∧
  savefig (figure_of (generated (wc_of i) l)) download_args = inr data.
Proof.
  unfold classify.
  destruct (generate_clicked i); simpl;
    [|split; [discriminate | intros [? _]; discriminate]].
  destruct (has_text i); simpl;
    [|split; [discriminate | intros (_ & ? & _); discriminate]].
  destruct (engine_generate _ _) as [e|l'].
  - destruct (soft e);
      (split; [discriminate | intros (_ & _ & ? & _); discriminate]).
  - destruct (savefig _ _) as [e|d] eqn:Hs.
    + split; [discriminate|].
      intros (_ & _ & [= ->] & Hd). rewrite Hd in Hs. discriminate.
    + split.
      * intros [= -> ->]. by rewrite Hs.
      * intros (_ & _ & [= ->] & Hd). rewrite Hd in Hs. by injection Hs as ->.
Qed.

Lemma generate_wordcloud_calls text mw bg cm cs mask cw cc uc :
  generation_calls (trace (generate_wordcloud' text mw bg cm cs mask cw cc uc))
  = [(new_WordCloud' mw bg cm cs mask cw cc uc, text)].
Proof.
  rewrite generate_wordcloud_cases.
  destruct (engine_generate _ _) as [e|l]; [destruct (soft e)|]; reflexivity.
Qed.

End Pass.

(** ** The page's behaviour *)

Section Claims.
Variable unicode_lower : str → str.
Variable STOPWORDS : gset str.
Variable layout : Type.
Variable engine_generate : WC.config → str → pyexc + layout.
Variable savefig : Figure layout → savefig_args → pyexc + bytes.

Abbreviation generate_wordcloud' :=
  (generate_wordcloud unicode_lower STOPWORDS layout engine_generate).
Abbreviation new_WordCloud' := (new_WordCloud unicode_lower STOPWORDS layout).
Abbreviation app' :=
  (app unicode_lower STOPWORDS layout engine_generate savefig).
Abbreviation block' :=
  (generate_button_block unicode_lower STOPWORDS layout engine_generate savefig).
Abbreviation wc_of := (the_wordcloud unicode_lower STOPWORDS layout).
Abbreviation soft := (soft_failure unicode_lower).
Abbreviation kind_of :=
  (classify unicode_lower STOPWORDS layout engine_generate savefig).
Abbreviation produced_by :=
  (produced unicode_lower STOPWORDS layout engine_generate savefig).

Ltac by_pass_kind i :=
  rewrite ?app_generation_calls, ?app_warnings, ?app_displays,
    ?app_encodings, ?app_render_steps, ?app_downloads, ?app_result,
    ?block_result.

Ltac each_entry :=
  repeat first [apply Forall_nil_2 | apply Forall_cons_2; [simpl|]].

(** C1.  When the generate button is pressed on a text that is empty or
    all whitespace, the pass shows the empty-input warning and nothing
    else happens: [WordCloud.generate] is not called, no figure is
    shown or saved, no download button is offered, and the pass ends
    normally. *)
Theorem blank_text_only_warns (i : inputs) :
  generate_clicked i = true →
  forallb isspace (user_text i) = true →
  warnings (trace (app' i)) = [empty_input_warning] ∧
  generation_calls (trace (app' i)) = [] ∧
  displays (trace (app' i)) = [] ∧
  encodings (trace (app' i)) = [] ∧
  downloads (trace (app' i)) = [] ∧
  result (app' i) = Returned tt.
Proof.
  intros Hc Hb. apply has_text_false_iff in Hb.
  assert (kind_of i = EmptyInput) as Hk
    by (unfold classify; by rewrite Hc, Hb).
  by_pass_kind i. by rewrite Hk.
Qed.

(** C3.  The empty-result rule misses the case it is written for.  When
    the text has no word left, the wordcloud package raises a
    [ValueError] whose message, "We need at least 1 word to plot a word
    cloud, got 0.", does not contain "empty"; [generate_wordcloud] then
    shows no warning and returns nothing: it raises that error again, and
    the pass ends with it, without the actionable warning that the
    comment of line 47 and the warning text promise for this case. *)
Theorem no_words_error_is_reraised (i : inputs) :
  generate_clicked i = true →
  has_text i = true →
  engine_generate (wc_params (wc_of i)) (user_text i)
  = inl (PyExc true no_words_message) →
  soft (PyExc true no_words_message) = false ∧
  result (generate_wordcloud' (user_text i) (max_words i) (background_color i)
            (selected_colormap i) (custom_stopwords_input i) mask_array
            contour_width contour_color use_contour)
  = Raised (PyExc true no_words_message) ∧
  warnings (trace (app' i)) = [] ∧
  result (app' i) = Raised (PyExc true no_words_message).
Proof.
  intros Hc Ht He.
  assert (soft (PyExc true no_words_message) = false) as Hs by by vm_compute.
  assert (kind_of i = GenerationError (PyExc true no_words_message)) as Hk
    by (unfold classify; by rewrite Hc, Ht, He, Hs).
  split_and!; [done| |by_pass_kind i; by rewrite Hk..].
  rewrite generate_wordcloud_cases. fold (wc_of i). by rewrite He, Hs.
Qed.

(** C4.  The bytes variable is [None] when the button block starts; the
    block leaves a buffer in it exactly when, in this pass, the button
    was pressed on a non-blank text, the engine returned and the
    encoder returned that buffer; the download block offers that buffer
    when it exists (is not empty) and offers nothing otherwise.  So a
    pass offers a download if and only if it produced and encoded a
    word cloud itself. *)
Theorem download_iff_produced (i : inputs) :
  (∀ data, result (block' i None) = Returned (Some data) ↔ produced_by i data) ∧
  (∀ data file_name mime,
     (data, file_name, mime) ∈ downloads (trace (app' i)) ↔
     produced_by i data ∧ data ≠ [] ∧
     file_name = "my_word_cloud.png"%string ∧ mime = "image/png"%string) ∧
  (downloads (trace (app' i)) ≠ [] ↔ ∃ data, produced_by i data ∧ data ≠ []).
Proof.
  assert (∀ data, produced_by i data ↔ ∃ l, kind_of i = Rendered l data) as Hp.
  { intros data. unfold produced. split.
    - intros (Hc & Ht & l & He & Hs). exists l.
      by apply classify_Rendered_iff.
    - intros [l Hl]. apply classify_Rendered_iff in Hl as (? & ? & ? & ?).
      eauto 6. }
  split; [|split].
  - intros data. rewrite Hp. by_pass_kind i.
    destruct (kind_of i); split;
      try discriminate; try (intros [? ?]; discriminate).
    + intros [= ->]. eauto.
    + by intros [? [= _ ->]].
  - intros data f m. rewrite Hp. by_pass_kind i.
    destruct (kind_of i) as [| | | | |l d]; try (
      split; [by intros ?%elem_of_nil | by intros ([? ?] & _)]).
    destruct d as [|b d]; simpl.
    + split; [by intros ?%elem_of_nil|].
      by intros ([? [= _ <-]] & ? & _).
    + rewrite list_elem_of_singleton. split.
      * intros [= -> -> ->]. eauto.
      * by intros ([? [= _ <-]] & _ & -> & ->).
  - by_pass_kind i. split.
    + destruct (kind_of i) as [| | | | |l d] eqn:Hk; try done.
      destruct d as [|b d]; [done|]. intros _. exists (b :: d).
      split; [|done]. apply Hp. eauto.
    + intros (data & [l ->]%Hp & Hd). by destruct data.
Qed.

(** C5.  Whatever the inputs, every download button of a pass carries
    the file name "my_word_cloud.png" and the mime type "image/png". *)
Theorem download_name_and_type_fixed (i : inputs) :
  Forall (λ '(_, file_name, mime),
            file_name = "my_word_cloud.png"%string
            ∧ mime = "image/png"%string)
    (downloads (trace (app' i))).
Proof.
  by_pass_kind i.
  destruct (kind_of i) as [| | | | |l d]; try by constructor.
  destruct (truthy d); each_entry; done.
Qed.


(** C7.  In every pass the mask is [None] and the contour is off, for
    these are constants of the script that no widget sets; so every
    call of [WordCloud.generate] is on an object with no mask, width
    1200, height 600 and contour width 0.  In [generate_wordcloud]
    itself an absent mask gives that size and contour width whatever
    the contour arguments are. *)
Theorem default_flow_has_no_mask :
  (mask_array = None ∧ use_contour = false ∧ contour_width = 0%Z
   ∧ contour_color = "black"%string) ∧
  (∀ i,
     Forall (λ '(wc, _),
               WC.mask (wc_params wc) = None ∧
               WC.width (wc_params wc) = Some 1200%Z ∧
               WC.height (wc_params wc) = Some 600%Z ∧
               WC.contour_width (wc_params wc) = 0%Z ∧
               WC.contour_color (wc_params wc) = "black"%string)
       (generation_calls (trace (app' i)))) ∧
  (∀ text mw bg cm cs cw cc uc,
     Forall (λ '(wc, _),
               WC.mask (wc_params wc) = None ∧
               WC.width (wc_params wc) = Some 1200%Z ∧
               WC.height (wc_params wc) = Some 600%Z ∧
               WC.contour_width (wc_params wc) = 0%Z)
       (generation_calls
          (trace (generate_wordcloud' text mw bg cm cs None cw cc uc)))).
Proof.
  split; [done|]. split.
  - intros i. by_pass_kind i. destruct (kind_of i); each_entry; done.
  - intros. rewrite generate_wordcloud_calls. each_entry.
    by rewrite andb_false_r.
Qed.

(** C8.  Whatever the arguments, [generate_wordcloud] calls the engine
    once, on an object whose minimum font size is 10 and whose
    preference for horizontal words is 0.9, a weight between 0 and 1. *)
Theorem font_size_and_orientation_fixed text mw bg cm cs mask cw cc uc :
  let wc := new_WordCloud' mw bg cm cs mask cw cc uc in
  generation_calls (trace (generate_wordcloud' text mw bg cm cs mask cw cc uc))
  = [(wc, text)] ∧
  WC.min_font_size (wc_params wc) = 10%Z ∧
  WC.prefer_horizontal (wc_params wc) = (9 # 10)%Q ∧
  (0 <= WC.prefer_horizontal (wc_params wc))%Q ∧
  (WC.prefer_horizontal (wc_params wc) <= 1)%Q.
Proof.
  intros wc. split; [apply generate_wordcloud_calls|].
  repeat split; simpl; by vm_compute.
Qed.

(** C9, as the code has it.  When the engine returns, the pass draws the
    generated object on a 12 by 6 figure with bilinear interpolation
    and the axes off, first shows that figure on the page and only then
    saves the same figure as PNG with a tight bounding box, a padding
    of 0.1 and 300 dpi.  The buffer the encoder returns is what the
    download button carries.  The encoding is determined by the result:
    another pass that generates the same object saves the same figure
    with the same arguments and ends with the same buffer and the same
    download. *)
Theorem render_then_encode (i : inputs) (l : layout) :
  generate_clicked i = true →
  has_text i = true →
  engine_generate (wc_params (wc_of i)) (user_text i) = inr l →
  let wc := generated (wc_of i) l in
  let fig := figure_of wc in
  render_steps (trace (app' i)) = [inl fig; inr (fig, download_args)] ∧
  (figsize fig = (12, 6)%Z ∧ image fig = Some (wc, "bilinear"%string)
   ∧ axis_on fig = false) ∧
  (format download_args = "PNG"%string
   ∧ bbox_inches download_args = "tight"%string
   ∧ pad_inches download_args = (1 # 10)%Q
   ∧ dpi download_args = 300%Z) ∧
  (∀ data, savefig fig download_args = inr data → data ≠ [] →
     downloads (trace (app' i))
     = [(data, "my_word_cloud.png", "image/png")%string]) ∧
  (∀ j l',
     generate_clicked j = true →
     has_text j = true →
     engine_generate (wc_params (wc_of j)) (user_text j) = inr l' →
     generated (wc_of j) l' = wc →
     encodings (trace (app' j)) = encodings (trace (app' i)) ∧
     result (block' j None) = result (block' i None) ∧
     downloads (trace (app' j)) = downloads (trace (app' i))).
Proof.
  intros Hc Ht He wc fig.
  assert (∀ j l', generate_clicked j = true → has_text j = true →
            engine_generate (wc_params (wc_of j)) (user_text j) = inr l' →
            kind_of j
            = match savefig (figure_of (generated (wc_of j) l')) download_args with
              | inl e => EncodingError l' e
              | inr data => Rendered l' data
              end) as Hkind.
  { intros j l' Hcj Htj Hej. unfold classify. by rewrite Hcj, Htj, Hej. }
  split; [|split; [done|split; [done|split]]].
  - by_pass_kind i. rewrite (Hkind i l Hc Ht He). by destruct (savefig _ _).
  - intros data Hs Hd. by_pass_kind i. rewrite (Hkind i l Hc Ht He).
    fold wc fig. rewrite Hs. by destruct data.
  - intros j l' Hcj Htj Hej Hwc.
    by_pass_kind i. by_pass_kind j.
    rewrite (Hkind i l Hc Ht He), (Hkind j l' Hcj Htj Hej), Hwc.
    fold wc fig.
    destruct (savefig fig download_args); cbv beta iota; by rewrite ?Hwc.
Qed.

End Claims.

(** ** The page on the example engine *)

(** A pass on a text with words ends with a download button. *)
Example animals_pass :
  downloads (trace (Demo.app (Demo.clicked Demo.animals "")))
  = [(Demo.png_signature, "my_word_cloud.png", "image/png")%string]
  ∧ warnings (trace (Demo.app (Demo.clicked Demo.animals ""))) = []
  ∧ result (Demo.app (Demo.clicked Demo.animals "")) = Returned tt.
Proof. by vm_compute. Qed.

Lemma blank_text_only_warns_witness :
  generate_clicked (Demo.clicked "  " "") = true ∧
  forallb isspace (user_text (Demo.clicked "  " "")) = true ∧
  warnings (trace (Demo.app (Demo.clicked "  " ""))) = [empty_input_warning] ∧
  generation_calls (trace (Demo.app (Demo.clicked "  " ""))) = [] ∧
  displays (trace (Demo.app (Demo.clicked "  " ""))) = [] ∧
  encodings (trace (Demo.app (Demo.clicked "  " ""))) = [] ∧
  downloads (trace (Demo.app (Demo.clicked "  " ""))) = [] ∧
  result (Demo.app (Demo.clicked "  " "")) = Returned tt.
Proof.
  split; [reflexivity|]. split; [reflexivity|].
  apply (blank_text_only_warns Demo.unicode_lower Demo.STOPWORDS
           (list str) Demo.engine_generate Demo.savefig
           (Demo.clicked "  " "")); reflexivity.
Defined.

Lemma no_words_error_is_reraised_witness :
  Demo.eligible_words
    (wc_params (the_wordcloud Demo.unicode_lower Demo.STOPWORDS (list str)
                  (Demo.clicked "the a an the a" "")))
    (py "the a an the a") = [] ∧
  warnings (trace (Demo.app (Demo.clicked "the a an the a" ""))) = [] ∧
  result (Demo.app (Demo.clicked "the a an the a" ""))
  = Raised (PyExc true no_words_message).
Proof.
  split; [by vm_compute|].
  destruct (no_words_error_is_reraised Demo.unicode_lower Demo.STOPWORDS
              (list str) Demo.engine_generate Demo.savefig
              (Demo.clicked "the a an the a" ""))
    as (_ & _ & Hw & Hr); [by vm_compute..|].
  exact (conj Hw Hr).
Defined.


(** C9 read with the display made from the buffer fails, also with an
    encoder that returns: the figure is put on the page before [savefig]
    is called on it. *)
Lemma display_from_buffer_fails :
  ¬ display_from_buffer Demo.unicode_lower Demo.STOPWORDS (list str)
      Demo.engine_generate Demo.savefig.
Proof.
  intros H.
  destruct (H (Demo.clicked Demo.animals "") []
              (figure_of
                 (generated
                    (the_wordcloud Demo.unicode_lower Demo.STOPWORDS
                       (list str) (Demo.clicked Demo.animals ""))
                    Demo.animals_layout))
              [inr (figure_of
                      (generated
                         (the_wordcloud Demo.unicode_lower Demo.STOPWORDS
                            (list str) (Demo.clicked Demo.animals ""))
                         Demo.animals_layout), download_args)])
    as (args & data & Hin & _).
  - rewrite app_render_steps.
    replace (classify _ _ _ _ _ _)
      with (Rendered Demo.animals_layout Demo.png_signature) by by vm_compute.
    reflexivity.
  - by apply elem_of_nil in Hin.
Qed.

Lemma render_then_encode_witness :
  render_steps (trace (Demo.app (Demo.clicked Demo.animals "")))
  = [inl (figure_of
            (generated
               (the_wordcloud Demo.unicode_lower Demo.STOPWORDS
                  (list str) (Demo.clicked Demo.animals ""))
               Demo.animals_layout));
     inr (figure_of
            (generated
               (the_wordcloud Demo.unicode_lower Demo.STOPWORDS
                  (list str) (Demo.clicked Demo.animals ""))
               Demo.animals_layout), download_args)].
Proof.
  apply (render_then_encode Demo.unicode_lower Demo.STOPWORDS
           (list str) Demo.engine_generate Demo.savefig
           (Demo.clicked Demo.animals "") Demo.animals_layout);
    by vm_compute.
Defined.

(** ** The stopword set *)

Lemma split_comma_free (p : str) : comma_free p → split comma p = [p].
Proof.
  unfold comma_free. induction p as [|c p IH]; simpl; [done|].
  intros [Hc Hp]%not_elem_of_cons.
  destruct (N.eqb_spec c comma) as [->|_]; [done|].
  by rewrite IH.
Qed.

Lemma split_app_comma (p s : str) :
  comma_free p → split comma (p ++ comma :: s) = p :: split comma s.
Proof.
  unfold comma_free. induction p as [|c p IH]; simpl; [done|].
  intros [Hc Hp]%not_elem_of_cons.
  destruct (N.eqb_spec c comma) as [->|_]; [done|].
  by rewrite IH.
Qed.

(** Splitting gives back the entries that were joined. *)
Lemma split_join (ps : list str) :
  ps ≠ [] → Forall comma_free ps → split comma (join comma ps) = ps.
Proof.
  induction ps as [|p ps IH]; [done|]. intros _ [Hp Hps]%Forall_cons.
  destruct ps as [|q ps]; simpl.
  - by apply split_comma_free.
  - rewrite split_app_comma by done. f_equal. by apply IH.
Qed.

Lemma isspace_range (c : N) : isspace c = true → (c ≤ 32 ∨ 133 ≤ c)%N.
Proof.
  unfold isspace.
  rewrite !orb_true_iff, !andb_true_iff, !N.leb_le, !N.eqb_eq. lia.
Qed.

Lemma spaces_comma_free (l : str) : forallb isspace l = true → comma_free l.
Proof.
  unfold comma_free. induction l as [|c l IH]; simpl.
  - intros _. apply not_elem_of_nil.
  - intros [Hc Hl]%andb_true_iff. apply not_elem_of_cons. split; [|by apply IH].
    intros <-. discriminate Hc.
Qed.

Lemma strip_padded (p q : str) : padded p q → strip q = strip p.
Proof.
  intros (l & r & Hl & Hr & ->). unfold strip.
  rewrite lstrip_spaces_app by done.
  destruct (lstrip p) as [|c p'] eqn:Hp.
  - apply lstrip_nil_iff in Hp.
    assert (lstrip (p ++ r) = []) as ->; [|done].
    apply lstrip_nil_iff. rewrite forallb_app, Hp, Hr. done.
  - rewrite lstrip_app_keep by by rewrite Hp.
    rewrite Hp. unfold rstrip. rewrite reverse_app.
    rewrite lstrip_spaces_app; [done|]. by rewrite forallb_reverse.
Qed.

Lemma padded_comma_free (p q : str) : padded p q → comma_free p → comma_free q.
Proof.
  intros (l & r & Hl & Hr & ->) Hp. unfold comma_free.
  rewrite !not_elem_of_app. split_and!; [|done|]; by apply spaces_comma_free.
Qed.

(** Two code points with the same [ascii_tolower] are equal or are both
    ASCII letters. *)
Lemma ascii_tolower_eq (a b : N) :
  ascii_tolower a = ascii_tolower b →
  a = b ∨ ((65 ≤ a ≤ 122) ∧ (65 ≤ b ≤ 122))%N.
Proof.
  unfold ascii_tolower.
  destruct (N.leb_spec 65 a), (N.leb_spec a 90),
    (N.leb_spec 65 b), (N.leb_spec b 90); simpl; lia.
Qed.

Lemma case_isspace (a b : N) :
  ascii_tolower a = ascii_tolower b → isspace a = isspace b.
Proof.
  intros [->|[Ha Hb]]%ascii_tolower_eq; [done|].
  destruct (isspace a) eqn:Ea; [apply isspace_range in Ea; lia|].
  destruct (isspace b) eqn:Eb; [apply isspace_range in Eb; lia|done].
Qed.

Lemma case_isascii (a b : N) :
  ascii_tolower a = ascii_tolower b → isascii a = isascii b.
Proof.
  intros [->|[Ha Hb]]%ascii_tolower_eq; [done|]. unfold isascii.
  destruct (N.ltb_spec a 128), (N.ltb_spec b 128); lia || done.
Qed.

Lemma case_changed_lstrip (s t : str) :
  case_changed s t → case_changed (lstrip s) (lstrip t).
Proof.
  unfold case_changed. induction 1 as [|a b s t Hab Hst IH]; simpl.
  - constructor.
  - rewrite <- (case_isspace a b Hab).
    destruct (isspace a); [done | by constructor].
Qed.

Lemma case_changed_strip (s t : str) :
  case_changed s t → case_changed (strip s) (strip t).
Proof.
  intros H. unfold strip, rstrip.
  by apply Forall2_reverse, case_changed_lstrip, Forall2_reverse,
    case_changed_lstrip.
Qed.

Lemma case_changed_comma_free (s t : str) :
  case_changed s t → comma_free s → comma_free t.
Proof.
  unfold comma_free. induction 1 as [|a b s t Hab Hst IH].
  - done.
  - rewrite !not_elem_of_cons. intros [Ha Hs]. split; [|by apply IH].
    intros <-. apply ascii_tolower_eq in Hab as [->|[_ Hb]]; [done|].
    unfold comma in Hb. lia.
Qed.

Section Stopwords.
Variable unicode_lower : str → str.
Variable STOPWORDS : gset str.

Abbreviation lower' := (lower unicode_lower).
Abbreviation custom_words' := (custom_words unicode_lower).
Abbreviation stopwords_set' := (stopwords_set unicode_lower STOPWORDS).

(** The entries kept from a list of pieces. *)
Abbreviation kept ps :=
  (List.map (fun word => lower' (strip word))
     (List.filter (fun word => truthy (strip word)) ps)).

Lemma elem_of_kept (ps : list str) (w : str) :
  w ∈ kept ps ↔
  ∃ piece, piece ∈ ps ∧ strip piece ≠ [] ∧ w = lower' (strip piece).
Proof.
  rewrite list_elem_of_In, in_map_iff. split.
  - intros (p & <- & [Hp Hk]%filter_In). exists p.
    by rewrite list_elem_of_In, <- truthy_true_iff.
  - intros (p & Hp & Hk & ->). exists p. split; [done|].
    apply filter_In. by rewrite <- list_elem_of_In, truthy_true_iff.
Qed.

(** The guard of line 27 changes nothing: the empty string adds no
    entry. *)
Lemma stopwords_set_union (extra : str) :
  stopwords_set' extra = STOPWORDS ∪ list_to_set (custom_words' extra).
Proof.
  unfold stopwords_set. destruct extra; simpl; [|done].
  by rewrite union_empty_r_L.
Qed.

Lemma custom_words_join (ps : list str) :
  Forall comma_free ps → custom_words' (join comma ps) = kept ps.
Proof.
  intros Hps. unfold custom_words. destruct ps as [|p ps]; [done|].
  by rewrite split_join.
Qed.

Lemma kept_set_same_entries (ps qs : list str) :
  (∀ p, p ∈ ps ↔ p ∈ qs) →
  list_to_set (C := gset str) (kept ps) = list_to_set (kept qs).
Proof.
  intros H. apply set_eq. intros w.
  rewrite !elem_of_list_to_set, !elem_of_kept.
  split; intros (p & Hp & Hk); exists p; by rewrite ?H in *.
Qed.

Lemma kept_pointwise (ps qs : list str) :
  Forall2 (fun p q => strip p = [] ↔ strip q = []) ps qs →
  Forall2 (fun p q => lower' (strip p) = lower' (strip q)) ps qs →
  kept ps = kept qs.
Proof.
  intros H1 H2. induction H1 as [|p q ps qs Hpq Hps IH]; [done|].
  apply Forall2_cons in H2 as [Hl H2]. cbn [List.filter].
  assert (truthy (strip p) = truthy (strip q)) as ->.
  { destruct (strip p), (strip q); simpl; try done.
    - destruct Hpq as [Hpq _]. by specialize (Hpq eq_refl).
    - destruct Hpq as [_ Hpq]. by specialize (Hpq eq_refl). }
  destruct (truthy (strip q)); cbn [List.map]; [|by apply IH].
  f_equal; [done | by apply IH].
Qed.

End Stopwords.

Lemma comma_free_check (p : str) :
  forallb (fun c => negb (c =? comma)%N) p = true → comma_free p.
Proof.
  unfold comma_free. induction p as [|c p IH]; simpl.
  - intros _. apply not_elem_of_nil.
  - intros [Hc Hp]%andb_true_iff. apply not_elem_of_cons. split; [|by apply IH].
    intros <-. by rewrite N.eqb_refl in Hc.
Qed.

Lemma case_changed_ascii_lower (s t : str) :
  case_changed s t →
  forallb isascii s = forallb isascii t
  ∧ List.map ascii_tolower s = List.map ascii_tolower t.
Proof.
  unfold case_changed. induction 1 as [|a b s t Hab Hst [IH1 IH2]]; simpl.
  - done.
  - by rewrite (case_isascii a b Hab), IH1, Hab, IH2.
Qed.

Lemma lower_case_changed_ascii (unicode_lower : str → str) (s t : str) :
  forallb isascii s = true → case_changed s t →
  lower unicode_lower s = lower unicode_lower t.
Proof.
  intros Ha Hst. destruct (case_changed_ascii_lower s t Hst) as [Hb Hm].
  unfold lower. by rewrite <- Hb, Ha, Hm.
Qed.

Section StopwordClaims.
Variable unicode_lower : str → str.
Variable STOPWORDS : gset str.

Abbreviation lower' := (lower unicode_lower).
Abbreviation custom_words' := (custom_words unicode_lower).
Abbreviation stopwords_set' := (stopwords_set unicode_lower STOPWORDS).

(** C2.  For every extra-stopwords string, a word is in the stopword
    set exactly when it is in the baseline or is the stripped and
    lower-cased form of a comma-separated piece that is not empty once
    stripped; that set is the one [WordCloud] is given.  For
    "the, AND ,, foo" the entries added are "the", "and" and "foo",
    none of them empty and each already lower-case, and the set is the
    baseline with those three. *)
Theorem stopwords_are_baseline_plus_entries :
  (∀ extra w,
     w ∈ stopwords_set' extra ↔
     w ∈ STOPWORDS ∨
     ∃ piece, piece ∈ split comma extra ∧ strip piece ≠ []
              ∧ w = lower' (strip piece)) ∧
  (∀ layout mw bg cm cs mask cw cc uc,
     WC.stopwords
       (wc_params (new_WordCloud unicode_lower STOPWORDS layout
                     mw bg cm cs mask cw cc uc))
     = stopwords_set' cs) ∧
  custom_words' (py "the, AND ,, foo") = [py "the"; py "and"; py "foo"] ∧
  stopwords_set' (py "the, AND ,, foo")
  = STOPWORDS ∪ {[py "the"; py "and"; py "foo"]} ∧
  Forall (fun w => w ≠ [] ∧ lower' w = w) (custom_words' (py "the, AND ,, foo")).
Proof.
  assert (custom_words' (py "the, AND ,, foo")
          = [py "the"; py "and"; py "foo"]) as Hw by by vm_compute.
  split_and!.
  - intros extra w.
    rewrite stopwords_set_union, elem_of_union, elem_of_list_to_set.
    unfold custom_words. by rewrite elem_of_kept.
  - done.
  - exact Hw.
  - rewrite stopwords_set_union, Hw. simpl.
    rewrite union_empty_r_L. f_equal.
  - rewrite Hw. repeat (apply Forall_cons_2 || apply Forall_nil_2);
      by vm_compute.
Qed.

End StopwordClaims.

(** ** Splitting and stripping, further *)

Lemma split_nonempty (s : str) : split comma s ≠ [].
Proof.
  induction s as [|c s IH]; simpl; [done|].
  destruct (c =? comma)%N; [done|]. by destruct (split comma s).
Qed.

Lemma join_cons_char (c : N) (p : str) (ps : list str) :
  join comma ((c :: p) :: ps) = c :: join comma (p :: ps).
Proof. by destruct ps. Qed.

Lemma join_split (s : str) : join comma (split comma s) = s.
Proof.
  induction s as [|c s IH]; simpl; [done|].
  destruct (N.eqb_spec c comma) as [->|Hc].
  - pose proof (split_nonempty s) as Hne.
    destruct (split comma s) as [|p ps]; [done|]. simpl in *. by rewrite IH.
  - pose proof (split_nonempty s) as Hne.
    destruct (split comma s) as [|p ps]; [done|].
    rewrite join_cons_char. by rewrite IH.
Qed.

Lemma split_pieces_comma_free (s : str) : Forall comma_free (split comma s).
Proof.
  unfold comma_free. induction s as [|c s IH]; simpl.
  - repeat constructor. apply not_elem_of_nil.
  - destruct (N.eqb_spec c comma) as [->|Hc].
    + constructor; [apply not_elem_of_nil | exact IH].
    + destruct (split comma s) as [|p ps].
      * repeat constructor. apply not_elem_of_cons.
        split; [congruence|apply not_elem_of_nil].
      * apply Forall_cons in IH as [Hp Hps]. constructor; [|done].
        apply not_elem_of_cons. split; [congruence|done].
Qed.

Lemma split_length (s : str) : length (split comma s) = S (commas s).
Proof.
  unfold commas. induction s as [|c s IH]; simpl; [done|].
  pose proof (split_nonempty s) as Hne.
  destruct (c =? comma)%N; simpl; [by rewrite IH|].
  destruct (split comma s) as [|p ps]; [done|]. exact IH.
Qed.

Lemma split_pieces_Forall (P : N → Prop) (s : str) :
  Forall P s → Forall (Forall P) (split comma s).
Proof.
  induction 1 as [|c s Hc Hs IH]; simpl; [by repeat constructor|].
  destruct (c =? comma)%N; [by constructor|].
  destruct (split comma s) as [|p ps]; [by repeat constructor|].
  apply Forall_cons in IH as [Hp Hps]. by repeat constructor.
Qed.

(** A comma between two strings separates their pieces. *)
Lemma split_app (a b : str) :
  split comma (a ++ comma :: b) = split comma a ++ split comma b.
Proof.
  induction a as [|c a IH]; simpl; [done|].
  destruct (c =? comma)%N; [by rewrite IH|].
  rewrite IH. pose proof (split_nonempty a) as Hne.
  by destruct (split comma a).
Qed.

Lemma lstrip_suffix (s : str) :
  ∃ l, forallb isspace l = true ∧ s = l ++ lstrip s.
Proof.
  induction s as [|c s (l & Hl & IH)]; simpl.
  - by exists [].
  - destruct (isspace c) eqn:Hc.
    + exists (c :: l). simpl. rewrite Hc, Hl. split; [done|]. by f_equal.
    + by exists [].
Qed.

Lemma rstrip_prefix (s : str) :
  ∃ r, forallb isspace r = true ∧ s = rstrip s ++ r.
Proof.
  destruct (lstrip_suffix (reverse s)) as (l & Hl & Hs).
  exists (reverse l). rewrite forallb_reverse. split; [done|].
  unfold rstrip. rewrite <- reverse_app, <- Hs. by rewrite reverse_involutive.
Qed.

(** Stripping removes a run of whitespace at each end and nothing else. *)
Lemma strip_decompose (s : str) :
  ∃ l r, forallb isspace l = true ∧ forallb isspace r = true
         ∧ s = l ++ strip s ++ r.
Proof.
  destruct (lstrip_suffix s) as (l & Hl & Hs).
  destruct (rstrip_prefix (lstrip s)) as (r & Hr & Ht).
  exists l, r. split_and!; [done..|]. unfold strip. by rewrite <- Ht.
Qed.

Lemma lstrip_head (s : str) (c : N) :
  head (lstrip s) = Some c → isspace c = false.
Proof.
  induction s as [|a s IH]; simpl; [done|].
  destruct (isspace a) eqn:Ha; [exact IH|]. simpl. by intros [= <-].
Qed.

Lemma last_reverse_head {A} (l : list A) : last (reverse l) = head l.
Proof. destruct l as [|x l]; [done|]. by rewrite reverse_cons, last_snoc. Qed.

Lemma strip_trimmed (s : str) : trimmed (strip s).
Proof.
  split; intros c Hc.
  - destruct (rstrip_prefix (lstrip s)) as (r & _ & Ht).
    fold (strip s) in Ht. apply (lstrip_head s). rewrite Ht.
    by destruct (strip s).
  - unfold strip, rstrip in Hc. rewrite last_reverse_head in Hc.
    by apply lstrip_head in Hc.
Qed.

Lemma lstrip_fixed (w : str) :
  (∀ c, head w = Some c → isspace c = false) → lstrip w = w.
Proof.
  destruct w as [|a w]; [done|]. simpl. intros H. by rewrite (H a eq_refl).
Qed.

(** A string with no whitespace at its ends is left as it is. *)
Lemma strip_fixed (w : str) : trimmed w → strip w = w.
Proof.
  intros [Hh Hl]. unfold strip, rstrip. rewrite (lstrip_fixed w Hh).
  rewrite lstrip_fixed; [apply reverse_involutive|].
  intros c Hc. apply Hl. by rewrite <- (reverse_involutive w), last_reverse_head.
Qed.

Lemma forallb_Forall {A} (f : A → bool) (l : list A) :
  forallb f l = true ↔ Forall (fun x => f x = true) l.
Proof.
  induction l as [|x l IH]; simpl.
  - split; [constructor | done].
  - rewrite andb_true_iff, Forall_cons, IH. done.
Qed.

Lemma strip_Forall (P : N → Prop) (s : str) : Forall P s → Forall P (strip s).
Proof.
  destruct (strip_decompose s) as (l & r & _ & _ & Hs). intros H.
  rewrite Hs in H. by apply Forall_app in H as [_ [H _]%Forall_app].
Qed.

Lemma strip_comma_free (s : str) : comma_free s → comma_free (strip s).
Proof.
  destruct (strip_decompose s) as (l & r & _ & _ & Hs). unfold comma_free.
  rewrite Hs at 1. rewrite !not_elem_of_app. by intros (_ & ? & _).
Qed.

Lemma ascii_tolower_idem (c : N) :
  ascii_tolower (ascii_tolower c) = ascii_tolower c.
Proof.
  unfold ascii_tolower.
  destruct (N.leb_spec 65 c), (N.leb_spec c 90); simpl;
    repeat match goal with
           | |- context [(?a <=? ?b)%N] => destruct (N.leb_spec a b)
           end; simpl; lia.
Qed.

Lemma ascii_tolower_not_upper (c : N) : isupper_ascii (ascii_tolower c) = false.
Proof.
  unfold isupper_ascii, ascii_tolower.
  destruct (N.leb_spec 65 c), (N.leb_spec c 90); simpl;
    rewrite andb_false_iff, !N.leb_gt; lia.
Qed.

Lemma ascii_tolower_fixed (c : N) :
  isupper_ascii c = false → ascii_tolower c = c.
Proof. unfold isupper_ascii, ascii_tolower. by intros ->. Qed.

Lemma ascii_tolower_isspace (c : N) : isspace (ascii_tolower c) = isspace c.
Proof. apply case_isspace, ascii_tolower_idem. Qed.

Lemma ascii_tolower_isascii (c : N) : isascii (ascii_tolower c) = isascii c.
Proof. apply case_isascii, ascii_tolower_idem. Qed.

Lemma ascii_tolower_comma (c : N) : ascii_tolower c = comma → c = comma.
Proof.
  intros H. destruct (ascii_tolower_eq c comma) as [?|[_ ?]]; [done..|].
  unfold comma in *. lia.
Qed.

Lemma last_map {A B} (f : A → B) (l : list A) :
  last (List.map f l) = f <$> last l.
Proof.
  induction l as [|x l IH]; [done|].
  destruct l as [|y l]; [done|]. exact IH.
Qed.

Lemma lower_ascii (unicode_lower : str → str) (s : str) :
  forallb isascii s = true → lower unicode_lower s = List.map ascii_tolower s.
Proof. unfold lower. by intros ->. Qed.

Section Entries.
Variable unicode_lower : str → str.
Variable STOPWORDS : gset str.

Abbreviation lower' := (lower unicode_lower).
Abbreviation custom_words' := (custom_words unicode_lower).
Abbreviation stopwords_set' := (stopwords_set unicode_lower STOPWORDS).

Lemma lowered_normal (w : str) :
  w ≠ [] → comma_free w → trimmed w → forallb isascii w = true →
  normal_entry (lower' w).
Proof.
  intros Hne Hc [Hh Hl] Ha. rewrite lower_ascii by done.
  unfold normal_entry. split_and!.
  - by destruct w.
  - unfold comma_free in *. rewrite list_elem_of_In, in_map_iff.
    intros (c & Hcc%ascii_tolower_comma & Hin). subst c.
    by apply Hc, list_elem_of_In.
  - split; intros c.
    + destruct w as [|a w]; [done|]. simpl. intros [= <-].
      rewrite ascii_tolower_isspace. by apply Hh.
    + rewrite last_map. destruct (last w) as [a|] eqn:Ea; [|done].
      simpl. intros [= <-]. rewrite ascii_tolower_isspace. by apply Hl.
  - rewrite forallb_forall in *. intros c (a & <- & Hin)%in_map_iff.
    rewrite ascii_tolower_isascii. by apply Ha.
  - rewrite forallb_forall. intros c (a & <- & Hin)%in_map_iff.
    by rewrite ascii_tolower_not_upper.
Qed.

Lemma custom_words_normal (extra : str) :
  forallb isascii extra = true → Forall normal_entry (custom_words' extra).
Proof.
  intros Ha. apply Forall_forall. intros w Hw.
  unfold custom_words in Hw. apply elem_of_kept in Hw as (p & Hp & Hne & ->).
  apply forallb_Forall in Ha.
  pose proof (split_pieces_Forall _ _ Ha) as Hpa.
  pose proof (split_pieces_comma_free extra) as Hpc.
  rewrite Forall_forall in Hpa, Hpc.
  apply lowered_normal; [done| | |].
  - by apply strip_comma_free, Hpc.
  - apply strip_trimmed.
  - by apply forallb_Forall, strip_Forall, Hpa.
Qed.

Lemma normal_entry_fixed (w : str) :
  normal_entry w → truthy (strip w) = true ∧ lower' (strip w) = w.
Proof.
  intros (Hne & _ & Ht & Ha & Hu). rewrite (strip_fixed w Ht).
  split; [by destruct w|]. rewrite lower_ascii by done.
  clear Hne Ht Ha. induction w as [|c w IH]; [done|].
  simpl in *. apply andb_true_iff in Hu as [Hc Hu].
  rewrite ascii_tolower_fixed by by apply negb_true_iff. by rewrite IH.
Qed.

End Entries.

Lemma startswith_iff (s p : str) : startswith s p = true ↔ ∃ r, s = p ++ r.
Proof.
  revert s. induction p as [|a p IH]; intros [|b s]; simpl.
  - split; [by exists [] | done].
  - split; [by exists (b :: s) | done].
  - split; [done | by intros [r ?]].
  - rewrite andb_true_iff, N.eqb_eq, IH. split.
    + intros [-> [r ->]]. by exists r.
    + intros [r [= -> ->]]. eauto.
Qed.

(** [in] asks for a contiguous occurrence. *)
Lemma contains_iff (hay needle : str) :
  contains hay needle = true ↔ ∃ l r, hay = l ++ needle ++ r.
Proof.
  induction hay as [|c hay IH]; cbn [contains];
    rewrite orb_true_iff, startswith_iff.
  - split.
    + intros [[r Hr]|?]; [|done]. exists [], r. done.
    + intros (l & r & H). left. destruct l; [|done]. by exists r.
  - rewrite IH. split.
    + intros [[r Hr]|(l & r & ->)]; [by exists [], r|].
      by exists (c :: l), r.
    + intros (l & r & H). destruct l as [|c' l].
      * left. by exists r.
      * right. injection H as -> ->. by exists l, r.
Qed.

Section EntryProperties.
Variable unicode_lower : str → str.
Variable STOPWORDS : gset str.

Abbreviation lower' := (lower unicode_lower).
Abbreviation custom_words' := (custom_words unicode_lower).
Abbreviation stopwords_set' := (stopwords_set unicode_lower STOPWORDS).

(** X1.  Splitting at commas and joining with commas undo each other:
    the pieces of any string join back to it, there is one more piece
    than there are commas, no piece holds a comma, and a non-empty list
    of comma-free entries is what its joined string splits into. *)
Theorem split_join_round_trip :
  (∀ s, join comma (split comma s) = s
        ∧ length (split comma s) = S (commas s)
        ∧ Forall comma_free (split comma s)) ∧
  (∀ ps, ps ≠ [] → Forall comma_free ps → split comma (join comma ps) = ps).
Proof.
  split.
  - intros s. split_and!.
    + apply join_split.
    + apply split_length.
    + apply split_pieces_comma_free.
  - apply split_join.
Qed.

(** X2.  Stripping takes a run of whitespace off each end and nothing
    else: the string is whitespace, the stripped string, whitespace; the
    stripped string has no whitespace at its ends, so whitespace inside an
    entry stays; and stripping again changes nothing. *)
Theorem strip_takes_only_the_ends (s : str) :
  (∃ l r, forallb isspace l = true ∧ forallb isspace r = true
          ∧ s = l ++ strip s ++ r) ∧
  trimmed (strip s) ∧
  strip (strip s) = strip s ∧
  (trimmed s → strip s = s).
Proof.
  split_and!.
  - apply strip_decompose.
  - apply strip_trimmed.
  - apply strip_fixed, strip_trimmed.
  - apply strip_fixed.
Qed.

(** X3.  The stopword set of two strings put together with a comma is
    the union of their stopword sets, and the entries are those of the
    first followed by those of the second. *)
Theorem stopwords_set_concat (a b : str) :
  custom_words' (a ++ comma :: b) = custom_words' a ++ custom_words' b ∧
  stopwords_set' (a ++ comma :: b) = stopwords_set' a ∪ stopwords_set' b.
Proof.
  assert (custom_words' (a ++ comma :: b) = custom_words' a ++ custom_words' b)
    as Hw.
  { unfold custom_words. by rewrite split_app, List.filter_app, List.map_app. }
  split; [done|].
  rewrite !stopwords_set_union, Hw, list_to_set_app_L.
  apply set_eq. intros w. rewrite !elem_of_union. tauto.
Qed.

(** X4.  The user's entries only add to the set: every built-in stopword
    stays in it, every other member is one of the entries, and there are
    at most as many entries as commas plus one. *)
Theorem baseline_kept (extra : str) :
  STOPWORDS ⊆ stopwords_set' extra ∧
  (∀ w, w ∈ stopwords_set' extra → w ∉ STOPWORDS → w ∈ custom_words' extra) ∧
  length (custom_words' extra) ≤ S (commas extra).
Proof.
  rewrite stopwords_set_union. split_and!.
  - apply union_subseteq_l.
  - intros w [?|Hw]%elem_of_union ?; [done|]. by apply elem_of_list_to_set in Hw.
  - unfold custom_words. rewrite List.length_map, <- split_length.
    apply List.filter_length_le.
Qed.

(** X5.  For an extra-stopwords string of ASCII characters every entry
    added is not empty, holds no comma, has no whitespace at its ends,
    and has no capital letter. *)
Theorem ascii_entries_normal (extra : str) :
  forallb isascii extra = true →
  Forall normal_entry (custom_words' extra).
Proof. apply custom_words_normal. Qed.

(** X6.  Normalising is idempotent on ASCII input: the entries of a
    string, joined with commas and given back as the extra-stopwords
    string, come out as the same entries and give the same set. *)
Theorem entries_renormalise (extra : str) :
  forallb isascii extra = true →
  custom_words' (join comma (custom_words' extra)) = custom_words' extra ∧
  stopwords_set' (join comma (custom_words' extra)) = stopwords_set' extra.
Proof.
  intros Ha. pose proof (custom_words_normal unicode_lower extra Ha) as Hn.
  assert (custom_words' (join comma (custom_words' extra))
          = custom_words' extra) as Hw.
  { rewrite custom_words_join
      by (eapply Forall_impl; [exact Hn | by intros w (_ & ? & _)]).
    induction Hn as [|w ws Hw _ IH]; [done|].
    destruct (normal_entry_fixed unicode_lower w Hw) as [Ht Hl].
    simpl. rewrite Ht. simpl. by rewrite Hl, IH. }
  split; [done|]. by rewrite !stopwords_set_union, Hw.
Qed.

End EntryProperties.

(** ** The pass as a whole *)

Section PassProperties.
Variable unicode_lower : str → str.
Variable STOPWORDS : gset str.
Variable layout : Type.
Variable engine_generate : WC.config → str → pyexc + layout.
Variable savefig : Figure layout → savefig_args → pyexc + bytes.

Abbreviation generate_wordcloud' :=
  (generate_wordcloud unicode_lower STOPWORDS layout engine_generate).
Abbreviation new_WordCloud' := (new_WordCloud unicode_lower STOPWORDS layout).
Abbreviation app' :=
  (app unicode_lower STOPWORDS layout engine_generate savefig).
Abbreviation wc_of := (the_wordcloud unicode_lower STOPWORDS layout).
Abbreviation soft := (soft_failure unicode_lower).
Abbreviation kind_of :=
  (classify unicode_lower STOPWORDS layout engine_generate savefig).

Ltac pass_cases i :=
  unfold classify, app, generate_button_block, download_block,
    has_text, the_wordcloud;
  rewrite generate_wordcloud_cases;
  destruct (generate_clicked i); [|reflexivity];
  destruct (truthy (user_text i)); [|reflexivity];
  destruct (truthy (strip (user_text i))); [|reflexivity];
  destruct (engine_generate _ _) as [e|l];
  [ destruct (soft e); reflexivity |];
  unfold figure_of, generated; simpl;
  destruct (savefig _ _) as [e|[|b data]]; reflexivity.

Ltac by_pass_kind i :=
  rewrite ?app_generation_calls, ?app_warnings, ?app_displays,
    ?app_encodings, ?app_render_steps, ?app_downloads, ?app_result.

(** The last call of a pass. *)
Lemma app_last i :
  last (trace (app' i)) =
    match kind_of i with
    | GenerationError _ => Some (WordCloud_generate (wc_of i) (user_text i))
    | EncodingError l _ =>
        Some (fig_savefig (figure_of (generated (wc_of i) l)) download_args)
    | _ => Some (st_markdown "Created by Dheeraj jaiswal" false)
    end.
Proof. pass_cases i. Qed.

Lemma app_markdowns i :
  markdowns (trace (app' i)) =
    [hide_st_style;
     "Create beautiful word clouds from your text. Customize colors, shapes, and Download it !"%string]
    ++ match kind_of i with
       | GenerationError _ | EncodingError _ _ => []
       | _ => ["---"; "Created by Dheeraj jaiswal"]%string
       end.
Proof. pass_cases i. Qed.

Lemma app_widget_labels i :
  widget_labels (trace (app' i)) =
    ["Paste your text below:"; "Maximum Words:"; "Background Color:";
     "Word Color Scheme (Colormap):";
     "Additional Stopwords (comma-separated):";
     "🚀 Generate Word Cloud"]%string.
Proof. pass_cases i. Qed.

Lemma has_text_true_iff (i : inputs) :
  has_text i = true ↔ forallb isspace (user_text i) = false.
Proof.
  rewrite <- not_false_iff_true, has_text_false_iff.
  by destruct (forallb isspace (user_text i)).
Qed.

Lemma kind_generates i :
  generate_clicked i = true → has_text i = true →
  kind_of i ≠ NotClicked ∧ kind_of i ≠ EmptyInput.
Proof.
  intros Hc Ht. unfold classify. rewrite Hc, Ht. simpl.
  destruct (engine_generate _ _) as [e|l];
    [destruct (soft e)|destruct (savefig _ _)]; done.
Qed.

(** X8.  The engine is called in a pass exactly when the button was
    pressed on a text with a character that is not whitespace, and then
    once: on the text as typed, not stripped, and on an object that
    carries the slider value, the background colour and the colormap of
    the widgets unchanged and the stopword set of the extra-stopwords
    field. *)
Theorem generation_iff_clicked_on_text (i : inputs) :
  (generation_calls (trace (app' i)) ≠ [] ↔
   generate_clicked i = true ∧ forallb isspace (user_text i) = false) ∧
  length (generation_calls (trace (app' i))) ≤ 1 ∧
  Forall (λ '(wc, text),
            text = user_text i ∧
            wc_layout wc = None ∧
            WC.max_words (wc_params wc) = max_words i ∧
            WC.background_color (wc_params wc) = background_color i ∧
            WC.colormap (wc_params wc) = selected_colormap i ∧
            WC.stopwords (wc_params wc)
            = stopwords_set unicode_lower STOPWORDS (custom_stopwords_input i))
    (generation_calls (trace (app' i))).
Proof.
  rewrite <- has_text_true_iff. by_pass_kind i. split_and!.
  - split.
    + unfold classify. destruct (generate_clicked i); [|done].
      by destruct (has_text i).
    + intros [Hc Ht]. destruct (kind_generates i Hc Ht).
      by destruct (kind_of i).
  - destruct (kind_of i); simpl; lia.
  - destruct (kind_of i);
      repeat first [apply Forall_nil_2 | apply Forall_cons_2; [simpl|]]; done.
Qed.

(** X9.  A pass without a press of the button does nothing but draw the
    page: no warning, no engine call, no figure, no download button,
    whatever a pass before it produced; it ends normally, and its calls
    are the same for every text, every option and every engine. *)
Theorem no_click_no_effect (i : inputs) :
  generate_clicked i = false →
  warnings (trace (app' i)) = [] ∧
  generation_calls (trace (app' i)) = [] ∧
  displays (trace (app' i)) = [] ∧
  encodings (trace (app' i)) = [] ∧
  downloads (trace (app' i)) = [] ∧
  result (app' i) = Returned tt ∧
  (∀ engine_generate' savefig' j,
     generate_clicked j = false →
     trace (app unicode_lower STOPWORDS layout engine_generate' savefig' j)
     = trace (app' i)).
Proof.
  intros Hc.
  assert (kind_of i = NotClicked) as Hk by (unfold classify; by rewrite Hc).
  by_pass_kind i. rewrite Hk. split_and!; try done.
  intros engine' savefig' j Hj. unfold app, generate_button_block.
  by rewrite Hc, Hj.
Qed.

(** X10.  When the engine raises an exception that is not softened, the
    pass ends there with that exception: the engine call is its last
    call, so no warning, no figure, no download button and no footer
    follow it. *)
Theorem generation_error_ends_pass (i : inputs) (e : pyexc) :
  generate_clicked i = true →
  has_text i = true →
  engine_generate (wc_params (wc_of i)) (user_text i) = inl e →
  soft e = false →
  result (app' i) = Raised e ∧
  last (trace (app' i)) = Some (WordCloud_generate (wc_of i) (user_text i)) ∧
  warnings (trace (app' i)) = [] ∧
  displays (trace (app' i)) = [] ∧
  downloads (trace (app' i)) = [] ∧
  "Created by Dheeraj jaiswal"%string ∉ markdowns (trace (app' i)).
Proof.
  intros Hc Ht He Hs.
  assert (kind_of i = GenerationError e) as Hk
    by (unfold classify; by rewrite Hc, Ht, He, Hs).
  by_pass_kind i. rewrite app_last, app_markdowns, Hk. split_and!; try done.
  simpl. rewrite !not_elem_of_cons. split_and!; try done.
  apply not_elem_of_nil.
Qed.

(** X11.  When the engine returns and the encoder raises, the figure has
    been put on the page, the pass ends with the encoder's exception at
    the [savefig] call, and neither the download button nor the footer is
    drawn. *)
Theorem encoding_error_ends_pass (i : inputs) (l : layout) (e : pyexc) :
  generate_clicked i = true →
  has_text i = true →
  engine_generate (wc_params (wc_of i)) (user_text i) = inr l →
  savefig (figure_of (generated (wc_of i) l)) download_args = inl e →
  result (app' i) = Raised e ∧
  last (trace (app' i))
  = Some (fig_savefig (figure_of (generated (wc_of i) l)) download_args) ∧
  displays (trace (app' i)) = [figure_of (generated (wc_of i) l)] ∧
  warnings (trace (app' i)) = [] ∧
  downloads (trace (app' i)) = [] ∧
  "Created by Dheeraj jaiswal"%string ∉ markdowns (trace (app' i)).
Proof.
  intros Hc Ht He Hs.
  assert (kind_of i = EncodingError l e) as Hk
    by (unfold classify; by rewrite Hc, Ht, He, Hs).
  by_pass_kind i. rewrite app_last, app_markdowns, Hk. split_and!; try done.
  simpl. rewrite !not_elem_of_cons. split_and!; try done.
  apply not_elem_of_nil.
Qed.

(** X12.  What a pass never does.  It makes at most one engine call,
    shows at most one warning and one figure and offers at most one
    download; a warning excludes a figure, a saving and a download; the
    figures shown are exactly the figures saved; a figure is only shown
    after an engine call, a download only offered with a figure on the
    page; and a pass that raises offers no download. *)
Theorem pass_invariants (i : inputs) :
  (length (generation_calls (trace (app' i))) ≤ 1 ∧
   length (warnings (trace (app' i))) ≤ 1 ∧
   length (displays (trace (app' i))) ≤ 1 ∧
   length (downloads (trace (app' i))) ≤ 1) ∧
  (warnings (trace (app' i)) ≠ [] →
   displays (trace (app' i)) = [] ∧ encodings (trace (app' i)) = []
   ∧ downloads (trace (app' i)) = []) ∧
  displays (trace (app' i)) = fst <$> encodings (trace (app' i)) ∧
  (displays (trace (app' i)) ≠ [] → generation_calls (trace (app' i)) ≠ []) ∧
  (downloads (trace (app' i)) ≠ [] → displays (trace (app' i)) ≠ []) ∧
  (∀ e, result (app' i) = Raised e → downloads (trace (app' i)) = []).
Proof.
  by_pass_kind i.
  destruct (kind_of i) as [| | | | |l d]; simpl;
    try destruct (truthy d); simpl; split_and!; (done || lia).
Qed.

(** X13.  Every pass, also one that raises, renders the five input
    widgets and the button, in the order of the script; the footer is
    drawn exactly when the pass ends normally. *)
Theorem page_frame (i : inputs) :
  widget_labels (trace (app' i)) =
    ["Paste your text below:"; "Maximum Words:"; "Background Color:";
     "Word Color Scheme (Colormap):";
     "Additional Stopwords (comma-separated):";
     "🚀 Generate Word Cloud"]%string ∧
  ("Created by Dheeraj jaiswal"%string ∈ markdowns (trace (app' i)) ↔
   result (app' i) = Returned tt).
Proof.
  split; [apply app_widget_labels|].
  rewrite app_markdowns, app_result.
  destruct (kind_of i); simpl; split; try done;
    try (intros _; do 3 apply list_elem_of_further; apply list_elem_of_here);
    intros H; repeat (apply elem_of_cons in H as [H|H]; [discriminate H|]);
    by apply elem_of_nil in H.
Qed.

(** X14.  [generate_wordcloud] hands the engine the mask it was given.
    With a mask no canvas size is set, and the contour width and colour
    of the caller are used only if [use_contour] is set; without a mask,
    or with [use_contour] unset, the contour is 0 wide and black. *)
Theorem contour_needs_mask_and_flag (text : str) (mw : Z) (bg cm : string)
    (cs : str) (mask : option ndarray) (cw : Z) (cc : string) (uc : bool) :
  Forall (λ '(wc, _),
            WC.mask (wc_params wc) = mask ∧
            match mask with
            | Some _ =>
                WC.width (wc_params wc) = None ∧
                WC.height (wc_params wc) = None ∧
                WC.contour_width (wc_params wc) = (if uc then cw else 0%Z) ∧
                WC.contour_color (wc_params wc)
                = (if uc then cc else "black"%string)
            | None =>
                WC.width (wc_params wc) = Some 1200%Z ∧
                WC.height (wc_params wc) = Some 600%Z ∧
                WC.contour_width (wc_params wc) = 0%Z ∧
                WC.contour_color (wc_params wc) = "black"%string
            end)
    (generation_calls
       (trace (generate_wordcloud' text mw bg cm cs mask cw cc uc))).
Proof.
  rewrite generate_wordcloud_calls.
  apply Forall_cons_2; [|apply Forall_nil_2]. simpl.
  destruct mask, uc; done.
Qed.

(** X7.  When the engine raises, [generate_wordcloud] shows the warning
    and returns [None] exactly when the exception is a [ValueError] and
    "empty" occurs, as five consecutive characters, in its lower-cased
    message; otherwise, and only then, it raises the same exception and
    shows no warning.  For an ASCII message the case of its letters does
    not matter: an engine that raises the same exception with the
    message in another case gives the same outcome. *)
Theorem soft_failure_iff_occurrence (text : str) (mw : Z) (bg cm : string)
    (cs : str) (mask : option ndarray) (cw : Z) (cc : string) (uc : bool)
    (e : pyexc) :
  engine_generate (wc_params (new_WordCloud' mw bg cm cs mask cw cc uc)) text
  = inl e →
  let r := generate_wordcloud' text mw bg cm cs mask cw cc uc in
  (result r = Returned None ∧ warnings (trace r) = [empty_result_warning] ↔
   is_ValueError e = true
   ∧ ∃ l l', lower unicode_lower (exc_str e) = l ++ py "empty" ++ l') ∧
  (result r = Raised e ∧ warnings (trace r) = [] ↔
   ¬ (is_ValueError e = true
      ∧ ∃ l l', lower unicode_lower (exc_str e) = l ++ py "empty" ++ l')) ∧
  (∀ engine_generate' m,
     forallb isascii (exc_str e) = true →
     case_changed (exc_str e) m →
     engine_generate' (wc_params (new_WordCloud' mw bg cm cs mask cw cc uc)) text
     = inl (PyExc (is_ValueError e) m) →
     let r' := generate_wordcloud unicode_lower STOPWORDS layout
                 engine_generate' text mw bg cm cs mask cw cc uc in
     warnings (trace r') = warnings (trace r) ∧
     (result r' = Returned None ↔ result r = Returned None)).
Proof.
  intros He r.
  assert (soft e = true ↔
          is_ValueError e = true
          ∧ ∃ l l', lower unicode_lower (exc_str e) = l ++ py "empty" ++ l')
    as Hiff by (unfold soft_failure; by rewrite andb_true_iff, contains_iff).
  subst r. rewrite generate_wordcloud_cases, He. split_and!.
  - rewrite <- Hiff. destruct (soft e); simpl; split; try done.
    by intros [? _].
  - rewrite <- Hiff. destruct (soft e); simpl; split; try done.
    by intros [? _].
  - intros engine' m Ha Hm He'. simpl.
    rewrite generate_wordcloud_cases, He'.
    assert (soft (PyExc (is_ValueError e) m) = soft e) as ->.
    { unfold soft_failure. simpl.
      by rewrite (lower_case_changed_ascii unicode_lower _ _ Ha Hm). }
    destruct (soft e); simpl; split; done.
Qed.

End PassProperties.

(** ** The further properties on the example engine *)

Lemma ascii_entries_normal_witness :
  forallb isascii (py "the, AND ,, New York ") = true ∧
  Forall normal_entry
    (custom_words Demo.unicode_lower (py "the, AND ,, New York ")).
Proof.
  split; [reflexivity|].
  apply (ascii_entries_normal Demo.unicode_lower
           (py "the, AND ,, New York ")).
  reflexivity.
Defined.

Lemma entries_renormalise_witness :
  forallb isascii (py "the, AND ,, New York ") = true ∧
  custom_words Demo.unicode_lower
    (join comma (custom_words Demo.unicode_lower (py "the, AND ,, New York ")))
  = custom_words Demo.unicode_lower (py "the, AND ,, New York ").
Proof.
  split; [reflexivity|].
  apply (entries_renormalise Demo.unicode_lower Demo.STOPWORDS
           (py "the, AND ,, New York ")).
  reflexivity.
Defined.

Lemma no_click_no_effect_witness :
  generate_clicked (idle Demo.animals "") = false ∧
  downloads (trace (Demo.app (idle Demo.animals ""))) = [] ∧
  result (Demo.app (idle Demo.animals "")) = Returned tt.
Proof.
  split; [reflexivity|].
  destruct (no_click_no_effect Demo.unicode_lower Demo.STOPWORDS (list str)
              Demo.engine_generate Demo.savefig (idle Demo.animals "")
              eq_refl) as (_ & _ & _ & _ & Hd & Hr & _).
  exact (conj Hd Hr).
Defined.

Lemma generation_error_ends_pass_witness :
  result (Demo.app (Demo.clicked "the a an the a" ""))
  = Raised (PyExc true
              (py "We need at least 1 word to plot a word cloud, got 0.")).
Proof.
  apply (generation_error_ends_pass Demo.unicode_lower Demo.STOPWORDS
           (list str) Demo.engine_generate Demo.savefig
           (Demo.clicked "the a an the a" "")
           (PyExc true
              (py "We need at least 1 word to plot a word cloud, got 0.")));
    by vm_compute.
Defined.

Lemma encoding_error_ends_pass_witness :
  result (app Demo.unicode_lower Demo.STOPWORDS (list str)
            Demo.engine_generate Demo.savefig_failing
            (Demo.clicked Demo.animals ""))
  = Raised (PyExc false (py "out of memory")).
Proof.
  apply (encoding_error_ends_pass Demo.unicode_lower Demo.STOPWORDS
           (list str) Demo.engine_generate Demo.savefig_failing
           (Demo.clicked Demo.animals "") Demo.animals_layout
           (PyExc false (py "out of memory")));
    by vm_compute.
Defined.

(** ** Order, repetition, padding and case of the entries *)

Section EntrySpelling.
Variable unicode_lower : str → str.
Variable STOPWORDS : gset str.

Abbreviation lower' := (lower unicode_lower).
Abbreviation stopwords_set' := (stopwords_set unicode_lower STOPWORDS).

(** C10, as the code has it.  The stopword set does not depend on how the
    entries are written as far as stripping and [lower] remove the
    difference: for entries that hold no comma, joining them in another
    order, joining one of them twice, or adding whitespace around them
    gives the same set; two spellings of the entries give the same set
    when, entry by entry, their stripped forms have the same [lower],
    and so does every change of the case of the letters A-Z and a-z in
    ASCII entries.  An empty string, and a string whose pieces are all
    empty once stripped, give exactly the baseline. *)
Theorem stopwords_set_insensitive :
  (∀ ps qs, Forall comma_free ps → Permutation ps qs →
     stopwords_set' (join comma ps) = stopwords_set' (join comma qs)) ∧
  (∀ ps p, Forall comma_free ps → p ∈ ps →
     stopwords_set' (join comma (p :: ps)) = stopwords_set' (join comma ps)
     ∧ stopwords_set' (join comma (ps ++ [p])) = stopwords_set' (join comma ps)) ∧
  (∀ ps qs, Forall comma_free ps → Forall2 padded ps qs →
     stopwords_set' (join comma ps) = stopwords_set' (join comma qs)) ∧
  (∀ ps qs, Forall comma_free ps → Forall comma_free qs →
     Forall2 (fun p q => (strip p = [] ↔ strip q = [])
                         ∧ lower' (strip p) = lower' (strip q)) ps qs →
     stopwords_set' (join comma ps) = stopwords_set' (join comma qs)) ∧
  (∀ ps qs, Forall comma_free ps →
     Forall (fun p => forallb isascii p = true) ps →
     Forall2 case_changed ps qs →
     stopwords_set' (join comma ps) = stopwords_set' (join comma qs)) ∧
  stopwords_set' [] = STOPWORDS ∧
  (∀ extra, Forall (fun piece => strip piece = []) (split comma extra) →
     stopwords_set' extra = STOPWORDS).
Proof.
  assert (∀ ps qs, Forall comma_free ps → Forall comma_free qs →
            (∀ p, p ∈ ps ↔ p ∈ qs) →
            stopwords_set' (join comma ps) = stopwords_set' (join comma qs))
    as Hsame.
  { intros ps qs Hps Hqs H.
    rewrite !stopwords_set_union, !custom_words_join by done.
    f_equal. by apply kept_set_same_entries. }
  assert (∀ ps qs, Forall comma_free ps → Forall comma_free qs →
            Forall2 (fun p q => strip p = [] ↔ strip q = []) ps qs →
            Forall2 (fun p q => lower' (strip p) = lower' (strip q)) ps qs →
            stopwords_set' (join comma ps) = stopwords_set' (join comma qs))
    as Hpoint.
  { intros ps qs Hps Hqs H1 H2.
    rewrite !stopwords_set_union, !custom_words_join by done.
    f_equal. f_equal. by apply kept_pointwise. }
  split_and!.
  - intros ps qs Hps Hperm. apply Hsame; [done| |].
    + by rewrite <- Hperm.
    + intros p. by rewrite Hperm.
  - intros ps p Hps Hp.
    assert (comma_free p) as Hcp by by eapply Forall_forall in Hps.
    split; apply Hsame; try done.
    + by constructor.
    + intros x. rewrite elem_of_cons. split; [by intros [->|?] | by right].
    + apply Forall_app. split; [done | by constructor].
    + intros x. rewrite elem_of_app, list_elem_of_singleton.
      split; [by intros [?| ->] | by left].
  - intros ps qs Hps Hpad. apply Hpoint; [done| | |].
    + induction Hpad as [|p q ps qs Hpq _ IH]; [done|].
      apply Forall_cons in Hps as [Hp Hps].
      constructor; [by eapply padded_comma_free | by apply IH].
    + eapply Forall2_impl; [exact Hpad|].
      intros p q Hpq. simpl. by rewrite (strip_padded p q).
    + eapply Forall2_impl; [exact Hpad|].
      intros p q Hpq. simpl. by rewrite (strip_padded p q).
  - intros ps qs Hps Hqs H. apply Hpoint; [done..| |].
    + eapply Forall2_impl; [exact H|]. by intros p q [? _].
    + eapply Forall2_impl; [exact H|]. by intros p q [_ ?].
  - intros ps qs Hps Ha Hcase.
    assert (Forall2 (fun p q => case_changed p q ∧ forallb isascii p = true)
              ps qs) as Hboth.
    { induction Hcase as [|p q ps qs Hpq _ IH]; [constructor|].
      apply Forall_cons in Hps as [_ Hps]. apply Forall_cons in Ha as [Hp Ha].
      constructor; [done | by apply IH]. }
    apply Hpoint; [done| | |].
    + clear Ha Hboth. induction Hcase as [|p q ps qs Hpq _ IH]; [done|].
      apply Forall_cons in Hps as [Hp Hps].
      constructor; [by eapply case_changed_comma_free | by apply IH].
    + eapply Forall2_impl; [exact Hcase|].
      intros p q Hpq%case_changed_strip. simpl.
      apply Forall2_length in Hpq.
      destruct (strip p), (strip q); done.
    + eapply Forall2_impl; [exact Hboth|].
      intros p q [Hpq Hp]. simpl.
      apply lower_case_changed_ascii; [|by apply case_changed_strip].
      by apply forallb_Forall, strip_Forall, forallb_Forall.
  - done.
  - intros extra Hall. rewrite stopwords_set_union.
    assert (custom_words unicode_lower extra = []) as ->;
      [|apply union_empty_r_L].
    unfold custom_words. induction Hall as [|p ps Hp _ IH]; [done|].
    simpl. by rewrite Hp.
Qed.

End EntrySpelling.

Lemma stopwords_set_insensitive_witness :
  stopwords_set Demo.unicode_lower Demo.STOPWORDS (py "foo,bar")
  = stopwords_set Demo.unicode_lower Demo.STOPWORDS (py "bar,foo") ∧
  stopwords_set Demo.unicode_lower Demo.STOPWORDS (py "foo,foo,bar")
  = stopwords_set Demo.unicode_lower Demo.STOPWORDS (py "foo,bar") ∧
  stopwords_set Demo.unicode_lower Demo.STOPWORDS (py "foo,bar")
  = stopwords_set Demo.unicode_lower Demo.STOPWORDS (py "  foo , bar") ∧
  stopwords_set Demo.unicode_lower Demo.STOPWORDS (py "foo,bar")
  = stopwords_set Demo.unicode_lower Demo.STOPWORDS (py "Foo,BAR") ∧
  stopwords_set Demo.unicode_lower Demo.STOPWORDS (py " , ,,")
  = Demo.STOPWORDS.
Proof.
  destruct (stopwords_set_insensitive Demo.unicode_lower Demo.STOPWORDS)
    as (Hperm & Hrep & Hpad & _ & Hcase & _ & Hblank).
  assert (Forall comma_free [py "foo"; py "bar"]) as Hfree
    by (repeat constructor; by apply comma_free_check).
  split_and!.
  - apply (Hperm [py "foo"; py "bar"] [py "bar"; py "foo"] Hfree).
    apply perm_swap.
  - apply (Hrep [py "foo"; py "bar"] (py "foo") Hfree). apply list_elem_of_here.
  - apply (Hpad [py "foo"; py "bar"] [py "  foo "; py " bar"] Hfree).
    repeat constructor.
    + by exists (py "  "), (py " ").
    + by exists (py " "), [].
  - apply (Hcase [py "foo"; py "bar"] [py "Foo"; py "BAR"] Hfree);
      repeat constructor.
  - apply (Hblank (py " , ,,")). by repeat constructor.
Defined.

(** C10 as stated fails outside ASCII.  The capital spelling of "straße"
    is "STRASSE" ([upper] with the capital of the sharp s); as extra
    stopwords the two give different sets, for "STRASSE" is stored as
    "strasse" and "straße" as itself.  On these strings the two example
    tables are those of the runtime. *)
Lemma capital_spelling_differs :
  upper Demo.unicode_upper strasse = py "STRASSE" ∧
  Demo.unicode_lower strasse = strasse ∧
  stopwords_set Demo.unicode_lower Demo.STOPWORDS
    (upper Demo.unicode_upper strasse)
  ≠ stopwords_set Demo.unicode_lower Demo.STOPWORDS strasse.
Proof.
  split_and!; [by vm_compute..|].
  intros H.
  apply (f_equal (fun X : gset str => bool_decide (py "strasse" ∈ X))) in H.
  vm_compute in H. discriminate H.
Qed.

Lemma soft_failure_iff_occurrence_witness :
  result (generate_wordcloud Demo.unicode_lower Demo.STOPWORDS (list str)
            Demo.engine_generate (py "the a an the a") 100 "#FFFFFF" "viridis"
            [] None 0 "black" false) = Returned None
  ∧ warnings (trace (generate_wordcloud Demo.unicode_lower Demo.STOPWORDS
                       (list str) Demo.engine_generate (py "the a an the a")
                       100 "#FFFFFF" "viridis" [] None 0 "black" false))
    = [empty_result_warning]
  ↔ true = true
    ∧ ∃ l l', lower Demo.unicode_lower no_words_message = l ++ py "empty" ++ l'.
Proof.
  destruct (soft_failure_iff_occurrence Demo.unicode_lower Demo.STOPWORDS
              (list str) Demo.engine_generate (py "the a an the a") 100
              "#FFFFFF" "viridis" [] None 0 "black" false
              (PyExc true no_words_message)) as (H & _ & _);
    [by vm_compute|].
  exact H.
Defined.
